(** * Systematic-review extraction agent: template parsing, prompt synthesis
      and record reconciliation

    A shallow embedding of [template_parser.py], [gemini_api_extractor.py]
    and [gemini_extractor.py].

    Python [str] values are modelled as lists of characters; a character is
    an 8-bit code point (Latin-1), which covers every literal of the source
    (including the sign U+00B1 of the second section pattern).  The character
    tables ([isspace], [lower], cased-ness) are those of CPython restricted
    to code points below 256. *)

From Stdlib Require Import List String Ascii Bool Arith Lia ZArith.
From Stdlib Require Import Permutation.
Import ListNotations.

Set Implicit Arguments.
Set Warnings "-register-all".
Open Scope list_scope.

(* ================================================================== *)
(** ** Python strings *)
(* ================================================================== *)

Module PyStr.

Definition str := list ascii.

(** A Python string literal. *)
Definition py (s : string) : str := list_ascii_of_string s.

Definition code (c : ascii) : nat := nat_of_ascii c.

Definition in_range (lo hi : nat) (c : ascii) : bool :=
  (lo <=? code c) && (code c <=? hi).

Definition chr_eqb (a b : ascii) : bool := Ascii.eqb a b.
Arguments chr_eqb : simpl never.

Definition NL : ascii := ascii_of_nat 10.
Definition COLON : ascii := ascii_of_nat 58.
Definition DOT : ascii := ascii_of_nat 46.
Definition SLASH : ascii := ascii_of_nat 47.

(** [str.isspace] on one character: TAB..CR, FS..US, SPACE, NEL, NBSP. *)
Definition isspace (c : ascii) : bool :=
  in_range 9 13 c || in_range 28 32 c
  || (code c =? 133) || (code c =? 160).

(** Upper-case letters (category Lu below 256). *)
Definition isupper_chr (c : ascii) : bool :=
  in_range 65 90 c || in_range 192 214 c || in_range 216 222 c.

(** Lower-case characters (derived property Lowercase below 256). *)
Definition islower_chr (c : ascii) : bool :=
  in_range 97 122 c || (code c =? 170) || (code c =? 181) || (code c =? 186)
  || in_range 223 246 c || in_range 248 255 c.

Definition lower_chr (c : ascii) : ascii :=
  if isupper_chr c then ascii_of_nat (code c + 32) else c.

(** [s.lower()] *)
Definition lower (s : str) : str := map lower_chr s.

(** [s.lstrip()], [s.rstrip()], [s.strip()] *)
Fixpoint lstrip (s : str) : str :=
  match s with
  | c :: s' => if isspace c then lstrip s' else s
  | [] => []
  end.

Definition rstrip (s : str) : str := rev (lstrip (rev s)).

Definition strip (s : str) : str := rstrip (lstrip s).

Fixpoint str_eqb (a b : str) : bool :=
  match a, b with
  | [], [] => true
  | x :: a', y :: b' => chr_eqb x y && str_eqb a' b'
  | _, _ => false
  end.

(** [s.startswith(p)] *)
Fixpoint startswith (s p : str) : bool :=
  match p, s with
  | [], _ => true
  | x :: p', y :: s' => chr_eqb x y && startswith s' p'
  | _ :: _, [] => false
  end.

(** [s.endswith(p)] *)
Definition endswith (s p : str) : bool := startswith (rev s) (rev p).

(** [p in s] *)
Fixpoint contains (s p : str) : bool :=
  startswith s p ||
  match s with
  | [] => false
  | _ :: s' => contains s' p
  end.

(** [s.find(p)]: the lowest index where [p] occurs, [-1] when it does not. *)
Fixpoint find_from (i : Z) (s p : str) : Z :=
  if startswith s p then i
  else match s with
       | [] => (-1)%Z
       | _ :: s' => find_from (i + 1)%Z s' p
       end.

Definition find (s p : str) : Z := find_from 0%Z s p.

(** [s.rfind(p)] for a one-character [p]: the highest index, [-1] when
    absent. *)
Fixpoint rfind_chr_from (i : Z) (s : str) (c : ascii) (last : Z) : Z :=
  match s with
  | [] => last
  | x :: s' => rfind_chr_from (i + 1)%Z s' c (if chr_eqb x c then i else last)
  end.

Definition rfind_chr (s : str) (c : ascii) : Z := rfind_chr_from 0%Z s c (-1)%Z.

(** [s[i:]] for [0 <= i] *)
Definition slice_from (s : str) (i : Z) : str := skipn (Z.to_nat i) s.

(** [s[:-k]] for [0 < k] *)
Definition slice_to_neg (s : str) (k : nat) : str := firstn (List.length s - k) s.

(** [s.isupper()]: no lower-case character and at least one upper-case one. *)
Fixpoint isupper_from (cased : bool) (s : str) : bool :=
  match s with
  | [] => cased
  | c :: s' =>
      if islower_chr c then false
      else isupper_from (cased || isupper_chr c) s'
  end.

Definition isupper (s : str) : bool := isupper_from false s.

(** [s.istitle()]: upper-case characters only after uncased ones, lower-case
    ones only after cased ones, and at least one cased character. *)
Fixpoint istitle_from (previous_is_cased cased : bool) (s : str) : bool :=
  match s with
  | [] => cased
  | c :: s' =>
      if isupper_chr c then
        if previous_is_cased then false else istitle_from true true s'
      else if islower_chr c then
        if previous_is_cased then istitle_from true true s' else false
      else istitle_from false cased s'
  end.

Definition istitle (s : str) : bool := istitle_from false false s.

(** [len(s.split())]: the number of maximal runs of non-space characters. *)
Fixpoint count_words_from (in_word : bool) (s : str) : nat :=
  match s with
  | [] => 0
  | c :: s' =>
      if isspace c then count_words_from false s'
      else (if in_word then 0 else 1) + count_words_from true s'
  end.

Definition len_split (s : str) : nat := count_words_from false s.

(** Truthiness of a string: [bool(s)] *)
Definition truthy (s : str) : bool :=
  match s with [] => false | _ :: _ => true end.

End PyStr.
Import PyStr.

(* ================================================================== *)
(** ** Exceptions *)
(* ================================================================== *)

(** The exceptions the modelled code raises or lets through. *)
Inductive PyExn : Type :=
| FileNotFoundError (msg : str)
| ValueError (msg : str)
| IndexError
| KeyError (key : str)
| TypeError
| JSONDecodeError
| ResourceExhausted
| IOError
| LibraryError (msg : str).

Inductive result (A : Type) : Type :=
| Ok (a : A)
| Raise (e : PyExn).
Arguments Ok {A} a.
Arguments Raise {A} e.

Definition bind {A B} (m : result A) (k : A -> result B) : result B :=
  match m with
  | Ok a => k a
  | Raise e => Raise e
  end.

Notation "x <- m ;; k" := (bind m (fun x => k))
  (at level 61, m at next level, right associativity).

(* ================================================================== *)
(** ** Regular expressions of [re.match] *)
(* ================================================================== *)

Module Re.

(** Patterns without groups; [re.match] succeeds on them exactly when some
    prefix of the text is in the language, so a pattern closed by [$] is
    matched against the whole text. *)
Inductive regex : Type :=
| Void
| Eps
| Cls (p : ascii -> bool)
| Cat (r1 r2 : regex)
| Alt (r1 r2 : regex)
| Star (r : regex).

Definition Plus (r : regex) : regex := Cat r (Star r).

Fixpoint Lit (s : str) : regex :=
  match s with
  | [] => Eps
  | c :: s' => Cat (Cls (chr_eqb c)) (Lit s')
  end.

(** [$]: the end of the text, or just before a newline that ends it. *)
Definition Dollar : regex := Alt Eps (Cls (chr_eqb NL)).

Fixpoint nullable (r : regex) : bool :=
  match r with
  | Void => false
  | Eps => true
  | Cls _ => false
  | Cat r1 r2 => nullable r1 && nullable r2
  | Alt r1 r2 => nullable r1 || nullable r2
  | Star _ => true
  end.

Fixpoint deriv (c : ascii) (r : regex) : regex :=
  match r with
  | Void => Void
  | Eps => Void
  | Cls p => if p c then Eps else Void
  | Cat r1 r2 =>
      if nullable r1 then Alt (Cat (deriv c r1) r2) (deriv c r2)
      else Cat (deriv c r1) r2
  | Alt r1 r2 => Alt (deriv c r1) (deriv c r2)
  | Star r1 => Cat (deriv c r1) (Star r1)
  end.

Fixpoint fullmatch (r : regex) (s : str) : bool :=
  match s with
  | [] => nullable r
  | c :: s' => fullmatch (deriv c r) s'
  end.

(** Character classes of the section patterns. *)
Definition A_Z (c : ascii) : bool := in_range 65 90 c.
Definition a_z (c : ascii) : bool := in_range 97 122 c.
Definition alpha_space (c : ascii) : bool := A_Z c || a_z c || isspace c.
Definition alpha_space_colon_pm (c : ascii) : bool :=
  A_Z c || a_z c || isspace c || chr_eqb c COLON || (code c =? 177).

(** [FIELD_PATTERN]: a lazy non-empty group 1 of characters other than
    newline, a colon, greedy white space, a greedy group 2 of characters
    other than newline, and [$]; searched in the order of a backtracking
    matcher. *)

(** [$] at the remaining text [s] *)
Definition at_dollar (s : str) : bool :=
  match s with
  | [] => true
  | [c] => chr_eqb c NL
  | _ => false
  end.

(** Group 2 and [$]: greedy, the longest run without newline first. *)
Fixpoint dot_star_dollar (s : str) : option str :=
  match s with
  | [] => Some []
  | c :: s' =>
      let stop := if at_dollar s then Some [] else None in
      if chr_eqb c NL then stop
      else match dot_star_dollar s' with
           | Some g => Some (c :: g)
           | None => stop
           end
  end.

(** White space, group 2 and [$]: greedy white space, giving back on
    failure; the result is group 2. *)
Fixpoint ws_star_tail (s : str) : option str :=
  match s with
  | [] => dot_star_dollar []
  | c :: s' =>
      if isspace c then
        match ws_star_tail s' with
        | Some g => Some g
        | None => dot_star_dollar s
        end
      else dot_star_dollar s
  end.

(** Group 1 and the colon: lazy, the shortest group 1 first; [g1] is what
    the group has taken so far. *)
Fixpoint lazy_head (g1 : str) (s : str) : option (str * str) :=
  match s with
  | [] => None
  | c :: s' =>
      match (if chr_eqb c COLON then ws_star_tail s' else None) with
      | Some g2 => Some (g1, g2)
      | None => if chr_eqb c NL then None else lazy_head (g1 ++ [c]) s'
      end
  end.

(** [re.match(FIELD_PATTERN, text)]: [Some (group(1), group(2))] or [None]. *)
Definition match_field (text : str) : option (str * str) :=
  match text with
  | [] => None
  | c :: s => if chr_eqb c NL then None else lazy_head [c] s
  end.

End Re.

(* ================================================================== *)
(** ** template_parser.py *)
(* ================================================================== *)

Module TemplateParser.

Import Re.

(** class [TemplateField] *)
Record TemplateField : Type := mkField {
  name : str;
  description : str;
  section : str
}.

(** [TemplateField.__init__] *)
Definition TemplateField_init (name description section : str) : TemplateField :=
  mkField (strip name) (strip description) (strip section).

(** What [python-docx] hands to the parser: the text of each body paragraph
    and, for each table, the text of the cells of each row. *)
Record Row : Type := mkRow { cells : list str }.
Record Table : Type := mkTable { rows : list Row }.
Record Document : Type := mkDocument {
  paragraphs : list str;
  tables : list Table
}.

(** What [pandas] hands to the parser: a column label is a string or some
    other value (a number, a date). *)
Inductive Label : Type :=
| LStr (s : str)
| LOther (n : Z).

Record Sheet : Type := mkSheet {
  sheet_name : str;
  columns : list Label
}.

Definition Workbook : Type := list Sheet.

(** [WordTemplateParser.SECTION_PATTERNS] *)
Definition SECTION_WORDS : regex :=
  Alt (Lit (py "Details"))
  (Alt (Lit (py "Characteristics"))
  (Alt (Lit (py "Outcomes"))
  (Alt (Lit (py "Identification"))
       (Lit (py "Information"))))).

Definition SECTION_PATTERNS : list regex :=
  [ Cat (Cls A_Z) (Cat (Plus (Cls alpha_space)) (Cat SECTION_WORDS Dollar));
    Cat (Cls A_Z) (Cat (Plus (Cls alpha_space))
      (Cat (Lit (py "("))
      (Cat (Plus (Cls alpha_space_colon_pm))
      (Cat (Lit (py ")")) Dollar)))) ].

(** The rules of [_is_section_header] below the colon check. *)
Definition header_rules (text : str) : bool :=
  if existsb (fun pattern => fullmatch pattern text) SECTION_PATTERNS then true
  else if isupper text || (istitle text && (len_split text <=? 6)) then true
  else false.

(** [WordTemplateParser._is_section_header] *)
Definition _is_section_header (text : str) : bool :=
  if endswith text (py ":") then false
  else header_rules text.

(** [WordTemplateParser._is_likely_title] *)
Definition title_keywords : list str :=
  [py "template"; py "data extraction"; py "meta-analysis"].

Definition _is_likely_title (text : str) : bool :=
  existsb (fun keyword => contains (lower text) keyword) title_keywords.

(** One iteration of the paragraph loop of [WordTemplateParser.parse]; the
    state is [(fields, current_section)]. *)
Definition paragraph_step (st : list TemplateField * str) (para_text : str)
  : list TemplateField * str :=
  let '(fields, current_section) := st in
  let text := strip para_text in
  if negb (truthy text) then st
  else if _is_section_header text then (fields, text)
  else match match_field text with
       | Some (g1, g2) =>
           let field_name := strip g1 in
           let field_desc := strip g2 in
           if _is_likely_title field_name then st
           else (fields ++ [TemplateField_init field_name field_desc current_section],
                 current_section)
       | None => st
       end.

Definition paragraph_pass (paras : list str) : list TemplateField * str :=
  fold_left paragraph_step paras ([], []).

(** One iteration of the row loop of [_parse_table]. *)
Definition row_step (current_section : str) (row_idx : nat) (row : Row)
    (fields : list TemplateField) : result (list TemplateField) :=
  skip <- (if row_idx =? 0 then
             match cells row with
             | [] => Raise IndexError
             | c0 :: _ =>
                 let first_cell := lower (strip c0) in
                 Ok (contains first_cell (py "field")
                     || contains first_cell (py "column"))
             end
           else Ok false) ;;
  if (skip : bool) then Ok fields
  else if 2 <=? List.length (cells row) then
    let field_name := strip (nth 0 (cells row) []) in
    let field_desc := strip (nth 1 (cells row) []) in
    if truthy field_name && negb (_is_likely_title field_name) then
      Ok (fields ++ [TemplateField_init field_name field_desc current_section])
    else Ok fields
  else Ok fields.

Fixpoint rows_loop (current_section : str) (row_idx : nat) (rs : list Row)
    (fields : list TemplateField) : result (list TemplateField) :=
  match rs with
  | [] => Ok fields
  | row :: rs' =>
      fields' <- row_step current_section row_idx row fields ;;
      rows_loop current_section (S row_idx) rs' fields'
  end.

(** [WordTemplateParser._parse_table] *)
Definition _parse_table (table : Table) (current_section : str)
  : result (list TemplateField) :=
  rows_loop current_section 0 (rows table) [].

(** The table loop of [WordTemplateParser.parse]. *)
Fixpoint tables_loop (current_section : str) (ts : list Table)
    (fields : list TemplateField) : result (list TemplateField) :=
  match ts with
  | [] => Ok fields
  | table :: ts' =>
      table_fields <- _parse_table table current_section ;;
      tables_loop current_section ts' (fields ++ table_fields)
  end.

(** [WordTemplateParser.parse], from the loaded document on. *)
Definition Word_parse (doc : Document) : result (list TemplateField) :=
  let '(fields, current_section) := paragraph_pass (paragraphs doc) in
  tables_loop current_section (tables doc) fields.

(** The column loop of [ExcelTemplateParser.parse] for one sheet. *)
Definition sheet_fields (sh : Sheet) : list TemplateField :=
  flat_map (fun col_name =>
              match col_name with
              | LStr s =>
                  if negb (startswith s (py "Unnamed")) then
                    [TemplateField_init s [] (sheet_name sh)]
                  else []
              | LOther _ => []
              end) (columns sh).

(** [ExcelTemplateParser.parse], from the loaded workbook on. *)
Definition Excel_parse (xl : Workbook) : list TemplateField :=
  fold_left (fun fields sh => fields ++ sheet_fields sh) xl [].

(** [os.path.splitext(p)[1]] (POSIX flavour): the extension starts at the
    last dot of the last path component, leading dots not counted. *)
Fixpoint has_non_dot (s : str) (lo hi : Z) (i : Z) : bool :=
  match s with
  | [] => false
  | c :: s' =>
      ((lo <=? i)%Z && (i <? hi)%Z && negb (chr_eqb c DOT))
      || has_non_dot s' lo hi (i + 1)%Z
  end.

Definition splitext_ext (p : str) : str :=
  let sepIndex := rfind_chr p SLASH in
  let dotIndex := rfind_chr p DOT in
  if (sepIndex <? dotIndex)%Z && has_non_dot p (sepIndex + 1)%Z dotIndex 0%Z
  then slice_from p dotIndex
  else [].

Inductive Format : Type := word | excel.

(** [detect_template_format] *)
Definition detect_template_format (filepath : str) : option Format :=
  let ext := lower (splitext_ext filepath) in
  if str_eqb ext (py ".docx") then Some word
  else if existsb (str_eqb ext) [py ".xlsx"; py ".xls"] then Some excel
  else None.

(** The environment of [parse_template]: the file system and the two
    document libraries, each of which returns a loaded template or raises. *)
Record Env : Type := mkEnv {
  os_path_exists : str -> bool;
  docx_Document : str -> result Document;
  pd_ExcelFile : str -> result Workbook
}.

(** [parser.parse(filepath)] for the parser chosen by the format. *)
Definition parser_parse (env : Env) (format_type : Format) (filepath : str)
  : result (list TemplateField) :=
  match format_type with
  | word => doc <- docx_Document env filepath ;; Word_parse doc
  | excel => xl <- pd_ExcelFile env filepath ;; Ok (Excel_parse xl)
  end.

(** [parse_template] *)
Definition parse_template (env : Env) (filepath : str)
  : result (list TemplateField) :=
  if negb (os_path_exists env filepath) then
    Raise (FileNotFoundError (py "Template file not found: " ++ filepath))
  else
    match detect_template_format filepath with
    | None => Raise (ValueError (py "Unsupported template format: " ++ filepath))
    | Some format_type =>
        fields <- parser_parse env format_type filepath ;;
        match fields with
        | [] => Raise (ValueError (py "No fields found in template: " ++ filepath))
        | _ :: _ => Ok fields
        end
    end.

(** [get_field_names] *)
Definition get_field_names (fields : list TemplateField) : list str :=
  map name fields.

End TemplateParser.

(* ================================================================== *)
(** ** Python values, dictionaries and data frames *)
(* ================================================================== *)

Module Py.

(** A decoded JSON value; a number is kept as its literal. *)
Inductive value : Type :=
| JNull
| JBool (b : bool)
| JNum (lit : str)
| JStr (s : str)
| JArr (items : list value)
| JObj (members : list (str * value)).

(** A [dict] with string keys, in insertion order; keys occur once. *)
Definition dict (V : Type) : Type := list (str * V).

Section Dict.
Variable V : Type.

(** [d.get(k)] *)
Fixpoint dict_get (d : dict V) (k : str) : option V :=
  match d with
  | [] => None
  | (k', v) :: d' => if str_eqb k' k then Some v else dict_get d' k
  end.

(** [k in d] *)
Definition dict_mem (d : dict V) (k : str) : bool :=
  match dict_get d k with Some _ => true | None => false end.

(** [d[k] = v]: an existing key keeps its place, a new one goes last. *)
Fixpoint dict_set (d : dict V) (k : str) (v : V) : dict V :=
  match d with
  | [] => [(k, v)]
  | (k', v') :: d' =>
      if str_eqb k' k then (k', v) :: d' else (k', v') :: dict_set d' k v
  end.

Definition dict_keys (d : dict V) : list str := map fst d.

End Dict.

(** [k in columns] *)
Definition mem (k : str) (l : list str) : bool := existsb (str_eqb k) l.

(** A [pandas.DataFrame]: column labels and rows of cells, a missing cell
    being [JNull]. *)
Record DataFrame : Type := mkDF {
  df_columns : list str;
  df_rows : list (list value)
}.

(** [pd.DataFrame([data])] *)
Definition DataFrame_of_record (data : dict value) : DataFrame :=
  mkDF (dict_keys data) [map snd data].

(** [df[c] = None] for a label [c] that is no column yet: a new last column
    of missing cells. *)
Definition set_column_None (df : DataFrame) (c : str) : DataFrame :=
  mkDF (df_columns df ++ [c]) (map (fun row => row ++ [JNull]) (df_rows df)).

(** The cell of [row] under the first column labelled [c]. *)
Fixpoint cell_at (cols : list str) (row : list value) (c : str) : option value :=
  match cols, row with
  | k :: cols', v :: row' => if str_eqb k c then Some v else cell_at cols' row' c
  | _, _ => None
  end.

(** [df[cols]]: the columns named by [cols], in that order; a label that
    is no column raises [KeyError]. *)
Definition select_columns (df : DataFrame) (cols : list str) : result DataFrame :=
  match List.find (fun c => negb (mem c (df_columns df))) cols with
  | Some c => Raise (KeyError c)
  | None =>
      Ok (mkDF cols
            (map (fun row =>
                    map (fun c => match cell_at (df_columns df) row c with
                                  | Some v => v
                                  | None => JNull
                                  end) cols)
                 (df_rows df)))
  end.

(** The output path and the pandas calls on it.  What these calls do is no
    code of the repository, so the front-ends are modelled over any
    behaviour of theirs; [File] is what the output path can hold.

    - [output_exists]: [os.path.exists(OUTPUT_FILE)];
    - [pd_read_excel]: [pd.read_excel(OUTPUT_FILE)], a frame or an exception;
    - [pd_concat a b]: [pd.concat([a, b], ignore_index=True)], a frame or an
      exception;
    - [df_to_excel df file]: [df.to_excel(OUTPUT_FILE, index=False)] on a
      path that holds [file]: what the path holds afterwards, and whether the
      call returned or raised. *)
Record Store (File : Type) : Type := mkStore {
  output_exists : File -> bool;
  pd_read_excel : File -> result DataFrame;
  pd_concat : DataFrame -> DataFrame -> result DataFrame;
  df_to_excel : DataFrame -> File -> File * result unit
}.

End Py.

(* ================================================================== *)
(** ** gemini_api_extractor.py *)
(* ================================================================== *)

Module GeminiApiExtractor.

Import TemplateParser Py.

Definition SOURCE_FILE : str := py "Source File".
Definition FENCE : str := py "```".

(** A source line closed by a newline. *)
Definition line (s : string) : str := py s ++ [NL].

(** The section a field is listed under. *)
Definition section_key (field : TemplateField) : str :=
  if truthy (section field) then section field else py "General".

(** One iteration of the grouping loop of [create_prompt]. *)
Definition group_step (sections : dict (list TemplateField))
    (field : TemplateField) : dict (list TemplateField) :=
  let section := section_key field in
  let sections :=
    if negb (dict_mem sections section) then dict_set sections section []
    else sections in
  match dict_get sections section with
  | Some fields => dict_set sections section (fields ++ [field])
  | None => sections
  end.

Definition group_fields (fields : list TemplateField)
  : dict (list TemplateField) :=
  fold_left group_step fields [].

Definition PREAMBLE : str :=
  line "You are an expert scientific researcher. Extract the following information from the attached PDF study."
  ++ line "Return the result as a valid JSON object where keys are the 'Field Name' and values are the extracted text/numbers. If information is strictly missing, use null."
  ++ line "Do not hallucinate data. If you are unsure, extraction is better left as null."
  ++ [NL].

Definition CLOSING : str :=
  [NL] ++ py "Return ONLY the JSON object. No markdown formatting (like ```json), no preamble.".

Definition field_line (prompt : str) (field : TemplateField) : str :=
  let desc :=
    if truthy (description field) then py ": " ++ description field else [] in
  prompt ++ (py "- " ++ name field ++ desc ++ [NL]).

Definition section_block (prompt : str) (kv : str * list TemplateField) : str :=
  let '(section_name, fields) := kv in
  let prompt := prompt ++ (py "--- " ++ section_name ++ line " ---") in
  fold_left field_line fields prompt.

(** [create_prompt], reading the global [TEMPLATE_FIELDS]. *)
Definition create_prompt (TEMPLATE_FIELDS : option (list TemplateField))
  : result str :=
  match TEMPLATE_FIELDS with
  | None =>
      Raise (ValueError (py "Template not loaded. Call load_template() first."))
  | Some fields =>
      let prompt := PREAMBLE in
      let sections := group_fields fields in
      let prompt := fold_left section_block sections prompt in
      Ok (prompt ++ CLOSING)
  end.

(** [clean_json_string] *)
Definition clean_json_string (response_text : str) : str :=
  let text := strip response_text in
  let text :=
    if startswith text FENCE then
      let first_newline := find text [NL] in
      let text :=
        if negb (first_newline =? -1)%Z
        then slice_from text (first_newline + 1)%Z
        else text in
      if endswith text FENCE then slice_to_neg text 3 else text
    else text in
  strip text.

(** What [extract_study_with_api] returns. *)
Inductive Extracted : Type :=
| Data (data : dict value)
| None_
| RETRY.

(** How the exchange with the service ends before the response is parsed. *)
Inductive Exchange : Type :=
| ProcessingFailed
| Response (text : str)
| Raised (e : PyExn).

(** [data['Source File'] = ...] *)
Definition setitem (data : value) (k : str) (v : value) : result (dict value) :=
  match data with
  | JObj d => Ok (dict_set d k v)
  | _ => Raise TypeError
  end.

Section Extract.

(** [json.loads]: the decoded value, or [JSONDecodeError]. *)
Variable json_loads : str -> result value.

(** The [try] block under "Parse Response" with its handler. *)
Definition parse_response (response_text basename : str) : result Extracted :=
  let attempt :=
    data <- json_loads (clean_json_string response_text) ;;
    data <- setitem data SOURCE_FILE (JStr basename) ;;
    Ok data in
  match attempt with
  | Ok data => Ok (Data data)
  | Raise JSONDecodeError => Ok None_
  | Raise e => Raise e
  end.

(** [extract_study_with_api], given how the exchange went. *)
Definition extract_study_with_api (exchange : Exchange) (basename : str)
  : Extracted :=
  let body :=
    match exchange with
    | ProcessingFailed => Ok None_
    | Raised e => Raise e
    | Response text => parse_response text basename
    end in
  match body with
  | Ok r => r
  | Raise ResourceExhausted => RETRY
  | Raise _ => None_
  end.

End Extract.

(** The loop "Ensure all columns" of [main], and its body. *)
Definition ensure_step (df : DataFrame) (c : str) : DataFrame :=
  if negb (mem c (df_columns df)) then set_column_None df c else df.

Definition ensure_columns (ALL_COLUMNS : list str) (df : DataFrame) : DataFrame :=
  fold_left ensure_step ALL_COLUMNS df.

(** "Save Incrementally", up to the reordering. *)
Definition reconcile (ALL_COLUMNS : list str) (data : dict value)
  : result DataFrame :=
  let df := DataFrame_of_record data in
  let df := ensure_columns ALL_COLUMNS df in
  let cols :=
    SOURCE_FILE :: filter (fun c => mem c (df_columns df)) ALL_COLUMNS in
  select_columns df cols.

Section Saving.

Variable File : Type.
Variable lib : Store File.

(** Reading the existing table, concatenating and writing; nothing is
    caught, so the first call that raises ends the step. *)
Definition save (file : File) (df : DataFrame) : File * result unit :=
  if output_exists lib file then
    match pd_read_excel lib file with
    | Ok existing =>
        match pd_concat lib existing df with
        | Ok df' => df_to_excel lib df' file
        | Raise e => (file, Raise e)
        end
    | Raise e => (file, Raise e)
    end
  else df_to_excel lib df file.

(** The branch [if data:] of [main] for one extracted record: the new
    [results] when the save went through; an exception leaves [main], whose
    locals go with it. *)
Definition record_and_save (ALL_COLUMNS : list str)
    (results : list (dict value)) (file : File) (data : dict value)
  : File * result (list (dict value)) :=
  let results := results ++ [data] in
  match reconcile ALL_COLUMNS data with
  | Raise e => (file, Raise e)
  | Ok df =>
      let '(file', r) := save file df in
      (file', _ <- r ;; Ok results)
  end.

End Saving.

End GeminiApiExtractor.

(* ================================================================== *)
(** ** gemini_extractor.py *)
(* ================================================================== *)

Module GeminiExtractor.

Import TemplateParser Py.

Definition SOURCE_FILE : str := py "Source File".

Definition line (s : string) : str := py s ++ [NL].

Definition section_key (field : TemplateField) : str :=
  if truthy (section field) then section field else py "General".

Definition group_step (sections : dict (list TemplateField))
    (field : TemplateField) : dict (list TemplateField) :=
  let section := section_key field in
  let sections :=
    if negb (dict_mem sections section) then dict_set sections section []
    else sections in
  match dict_get sections section with
  | Some fields => dict_set sections section (fields ++ [field])
  | None => sections
  end.

Definition group_fields (fields : list TemplateField)
  : dict (list TemplateField) :=
  fold_left group_step fields [].

Definition PREAMBLE : str :=
  line "Extract the following information from the attached PDF. Return the result as a valid JSON object where keys are the 'Field Name' and values are the extracted text. If information is missing, use null."
  ++ [NL].

Definition CLOSING : str :=
  [NL] ++ py "CRUCIAL: Verify the extracted data against the PDF one more time before outputting to ensure accuracy. Return ONLY the JSON object, no markdown formatting.".

Definition field_line (prompt : str) (field : TemplateField) : str :=
  if truthy (description field) then
    prompt ++ (py "- " ++ name field ++ py ": " ++ description field ++ [NL])
  else
    prompt ++ (py "- " ++ name field ++ [NL]).

Definition section_block (prompt : str) (kv : str * list TemplateField) : str :=
  let '(section_name, fields) := kv in
  let prompt := prompt ++ (py "--- " ++ section_name ++ line " ---") in
  let prompt := fold_left field_line fields prompt in
  prompt ++ [NL].

(** [create_prompt], reading the global [TEMPLATE_FIELDS]. *)
Definition create_prompt (TEMPLATE_FIELDS : option (list TemplateField))
  : result str :=
  match TEMPLATE_FIELDS with
  | None =>
      Raise (ValueError (py "Template not loaded. Call load_template() first."))
  | Some fields =>
      let prompt := PREAMBLE in
      let sections := group_fields fields in
      let prompt := fold_left section_block sections prompt in
      Ok (prompt ++ CLOSING)
  end.

(** The loop "Align columns" of [main], and its body. *)
Definition ensure_step (df : DataFrame) (c : str) : DataFrame :=
  if negb (mem c (df_columns df)) then set_column_None df c else df.

Definition ensure_columns (ALL_COLUMNS : list str) (df : DataFrame) : DataFrame :=
  fold_left ensure_step ALL_COLUMNS df.

(** "Save Incremental", up to the reordering; [study_results] holds the one
    record of the document. *)
Definition reconcile (ALL_COLUMNS : list str) (data : dict value)
  : result DataFrame :=
  let df := DataFrame_of_record data in
  let df := ensure_columns ALL_COLUMNS df in
  let cols :=
    SOURCE_FILE :: filter (fun c => mem c (df_columns df)) ALL_COLUMNS in
  select_columns df cols.

Section Saving.

Variable File : Type.
Variable lib : Store File.

Definition save (file : File) (df : DataFrame) : File * result unit :=
  if output_exists lib file then
    match pd_read_excel lib file with
    | Ok existing =>
        match pd_concat lib existing df with
        | Ok df' => df_to_excel lib df' file
        | Raise e => (file, Raise e)
        end
    | Raise e => (file, Raise e)
    end
  else df_to_excel lib df file.

(** The branch [if study_results:] of [main]. *)
Definition record_and_save (ALL_COLUMNS : list str)
    (all_results : list (dict value)) (file : File) (data : dict value)
  : File * result (list (dict value)) :=
  let all_results := all_results ++ [data] in
  match reconcile ALL_COLUMNS data with
  | Raise e => (file, Raise e)
  | Ok df =>
      let '(file', r) := save file df in
      (file', _ <- r ;; Ok all_results)
  end.

End Saving.

End GeminiExtractor.

(* ================================================================== *)
(** ** The specification's wording, for comparison with the code *)
(* ================================================================== *)

Module Spec.

Import TemplateParser Py.

(** The distinct elements of a list in the order of their first
    occurrence. *)
Definition first_occurrences (l : list str) : list str :=
  fold_left (fun seen x => if mem x seen then seen else seen ++ [x]) l [].

(** Prompt synthesis as the specification words it: a preamble, then for
    each distinct section in first-occurrence order a banner and one bullet
    per field of that section in original order, then a closing. *)
Definition spec_label (f : TemplateField) : str :=
  match section f with
  | [] => py "General"
  | _ :: _ => section f
  end.

Definition spec_bullet (f : TemplateField) : str :=
  match description f with
  | [] => py "- " ++ name f ++ [NL]
  | _ :: _ => py "- " ++ name f ++ py ": " ++ description f ++ [NL]
  end.

Definition spec_banner (sec : str) : str :=
  py "--- " ++ sec ++ py " ---" ++ [NL].

Definition spec_prompt (preamble after_section closing : str)
    (fields : list TemplateField) : str :=
  preamble
  ++ List.concat (map (fun sec =>
                    spec_banner sec
                    ++ List.concat (map spec_bullet
                                 (filter (fun f => str_eqb (spec_label f) sec)
                                         fields))
                    ++ after_section)
                 (first_occurrences (map spec_label fields)))
  ++ closing.

(** Response cleaning as the specification words it. *)
Fixpoint has_newline (s : str) : bool :=
  match s with
  | [] => false
  | c :: s' => chr_eqb c NL || has_newline s'
  end.

(** The text without its first line. *)
Fixpoint drop_first_line (s : str) : str :=
  match s with
  | [] => []
  | c :: s' => if chr_eqb c NL then s' else drop_first_line s'
  end.

(** The text without the three characters of a trailing fence. *)
Definition drop_trailing_fence (s : str) : str :=
  rev (skipn 3 (rev s)).

Definition spec_clean (raw : str) : str :=
  let text := strip raw in
  if startswith text (py "```") then
    let text := drop_first_line text in
    let text :=
      if endswith text (py "```") then drop_trailing_fence text else text in
    strip text
  else strip text.

(** The same with the first line dropped only from a text of several
    lines. *)
Definition spec_clean_guarded (raw : str) : str :=
  let text := strip raw in
  if startswith text (py "```") then
    let text := if has_newline text then drop_first_line text else text in
    let text :=
      if endswith text (py "```") then drop_trailing_fence text else text in
    strip text
  else strip text.

(** The tabular parser as the specification words it: every column header
    is a field name, the sheet name its section and the description empty,
    but for the headers that the source format made up for blank columns.
    pandas makes up the label "Unnamed: " followed by the position of the
    column. *)
Definition is_digit (c : ascii) : bool := in_range 48 57 c.

Definition is_placeholder (s : str) : bool :=
  startswith s (py "Unnamed: ")
  && truthy (skipn 9 s) && forallb is_digit (skipn 9 s).

Definition claimed_sheet_fields (sh : Sheet) : list TemplateField :=
  flat_map (fun l =>
              match l with
              | LStr s =>
                  if is_placeholder s then []
                  else [TemplateField_init s [] (sheet_name sh)]
              | LOther _ => []
              end) (columns sh).

Definition claimed_excel (xl : Workbook) : list TemplateField :=
  flat_map claimed_sheet_fields xl.

(** Every header that starts with "Unnamed" is one that pandas made up. *)
Definition only_placeholders_unnamed (xl : Workbook) : Prop :=
  forall sh s,
    In sh xl -> In (LStr s) (columns sh) ->
    startswith s (py "Unnamed") = true -> is_placeholder s = true.

(** A sheet whose first header was typed by the author. *)
Definition unnamed_workbook : Workbook :=
  [ mkSheet (py "S1") [LStr (py "Unnamed thing"); LStr (py "A")] ].


(** The last section header seen in the paragraph stream, the empty string
    when there is none. *)
Definition last_section_header (paras : list str) : str :=
  last (filter _is_section_header (map strip paras)) [].

(** A missing cell reads as [JNull]. *)
Definition cell_of (data : dict value) (c : str) : value :=
  match dict_get data c with
  | Some v => v
  | None => JNull
  end.

(** The text [{"a":1}] of the cleaning example, and the fenced response. *)
Definition DQ : ascii := ascii_of_nat 34.
Definition EXAMPLE_JSON : str := py "{" ++ [DQ] ++ py "a" ++ [DQ] ++ py ":1}".
Definition EXAMPLE_RESPONSE : str :=
  py "```json" ++ [NL] ++ EXAMPLE_JSON ++ [NL] ++ py "```".

(** A decoder that knows the example object and rejects every other
    text; it stands for [json.loads] where a concrete decoder is needed. *)
Definition example_loads (text : str) : result value :=
  if str_eqb text EXAMPLE_JSON then Ok (JObj [(py "a", JNum (py "1"))])
  else Raise JSONDecodeError.

(** Auxiliary predicates and sample inputs. *)

(** A text that does not start with white space. *)
Definition clean_head (s : str) : Prop :=
  match s with
  | [] => True
  | c :: _ => isspace c = false
  end.

(** What both passes build a field from: a trimmed, non-empty name that the
    title filter let through. *)
Definition emitted (sec : str) (f : TemplateField) : Prop :=
  exists raw desc,
    strip raw <> []
    /\ _is_likely_title (strip raw) = false
    /\ f = TemplateField_init (strip raw) desc sec.

(** The first row of a table, if any, has a cell. *)
Definition first_row_has_cell (table : Table) : Prop :=
  match rows table with
  | [] => True
  | row :: _ => cells row <> []
  end.

(** A template with a title line, two sections, inline fields and a table
    with a header row, a short row, a row without name and a title row. *)
Definition sample_document : Document :=
  mkDocument
    [ py "GLP1 Data Extraction Template: v1"; py "";
      py "Study Details"; py "Author:  name of author "; py "Year:";
      py "plain text"; py "OUTCOMES" ]
    [ mkTable [ mkRow [py "Field Name"; py "Description"];
                mkRow [py "HbA1c"; py "value"];
                mkRow [py "solo"];
                mkRow [py ""; py "x"];
                mkRow [py "Meta-Analysis Template"; py "y"] ] ].

Definition sample_fields : list TemplateField :=
  [ mkField (py "Author") (py "name of author") (py "Study Details");
    mkField (py "Year") [] (py "Study Details");
    mkField (py "HbA1c") (py "value") (py "OUTCOMES") ].

(** A file system with one Word template, one workbook and one document
    without fields; [broken.docx] exists and cannot be opened. *)
Definition sample_workbook : Workbook :=
  [ mkSheet (py "S1") [LStr (py "A"); LStr (py "B")];
    mkSheet (py "S2") [LStr (py "C")] ].

Definition sample_env : Env :=
  mkEnv
    (fun p => existsb (str_eqb p)
                [py "t.docx"; py "t.xlsx"; py "blank.docx"; py "notes.txt";
                 py "broken.docx"])
    (fun p =>
       if str_eqb p (py "t.docx") then Ok sample_document
       else if str_eqb p (py "blank.docx") then
         Ok (mkDocument [py "Data Extraction Template"; py ""] [])
       else Raise (LibraryError (py "PackageNotFoundError")))
    (fun p =>
       if str_eqb p (py "t.xlsx") then Ok sample_workbook
       else Raise (LibraryError (py "BadZipFile"))).

(** The cell of a reconciled row under a canonical field: the source
    identifier under the reserved label, else the value of the raw record,
    else null. *)
Definition reconciled_cell (raw : dict value) (source : str) (c : str) : value :=
  if str_eqb c (py "Source File") then JStr source else cell_of raw c.

Definition reconciled_row (raw : dict value) (source : str)
    (ALL_COLUMNS : list str) : DataFrame :=
  mkDF (py "Source File" :: ALL_COLUMNS)
       [JStr source :: map (reconciled_cell raw source) ALL_COLUMNS].



(** A store kept in memory, for examples: the path holds a table or
    nothing, the rows of the second frame go beneath those of the first (the
    sample frames have the same labels) and a write replaces the table. *)
Definition memory_store : Store (option DataFrame) :=
  mkStore
    (fun file => match file with Some _ => true | None => false end)
    (fun file => match file with
                 | Some table => Ok table
                 | None => Raise (FileNotFoundError (py "OUTPUT_FILE"))
                 end)
    (fun a b => Ok (mkDF (df_columns a) (df_rows a ++ df_rows b)))
    (fun df _ => (Some df, Ok tt)).




(** The fields of each section, sections in first-occurrence order. *)
Definition fields_of (sec : str) (fields : list TemplateField)
  : list TemplateField :=
  filter (fun f => str_eqb (spec_label f) sec) fields.

Definition grouped (fields : list TemplateField) : dict (list TemplateField) :=
  map (fun sec => (sec, fields_of sec fields))
      (first_occurrences (map spec_label fields)).

(** A field set with two sections, one of them written in two ways. *)
Definition sample_field_set : list TemplateField :=
  [ mkField (py "a") (py "d") (py "S"); mkField (py "b") [] [];
    mkField (py "c") [] (py "S"); mkField (py "e") [] (py "General") ].

End Spec.

(* ================================================================== *)
(** ** The rest of the front-ends: listing, resuming, retrying *)
(* ================================================================== *)

Module OsPath.

(** [os.path.basename(p)] (POSIX flavour): what follows the last slash. *)
Definition basename (p : str) : str :=
  slice_from p (rfind_chr p SLASH + 1)%Z.

(** [os.path.join(a, b)] (POSIX flavour) *)
Definition join (a b : str) : str :=
  if startswith b [SLASH] then b
  else if negb (truthy a) || endswith a [SLASH] then a ++ b
  else a ++ [SLASH] ++ b.

End OsPath.

Module Frames.

Import Py.

(** [df[label].tolist()]: the cells under the first column of that label. *)
Definition column (df : DataFrame) (label : str) : list value :=
  map (fun row => match cell_at (df_columns df) row label with
                  | Some v => v
                  | None => JNull
                  end)
      (df_rows df).

(** [series.dropna()]: the cells that are not missing. *)
Definition dropna (cells : list value) : list value :=
  filter (fun v => match v with JNull => false | _ => true end) cells.

(** [bool(d)] for a dictionary *)
Definition dict_truthy (V : Type) (d : dict V) : bool :=
  match d with [] => false | _ :: _ => true end.

(** [files[:limit]] for an integer [limit] of either sign. *)
Definition slice_upto (A : Type) (l : list A) (limit : Z) : list A :=
  if (limit <? 0)%Z then firstn (List.length l - Z.to_nat (- limit)) l
  else firstn (Z.to_nat limit) l.

End Frames.

Module ApiMain.

Import TemplateParser Py OsPath Frames GeminiApiExtractor.

Definition ARTICLES_DIR : str := py "Articles".

(** The test [f.lower().endswith('.pdf')] of the listing. *)
Definition is_pdf (f : str) : bool := endswith (lower f) (py ".pdf").

(** [pdf_files] of [main], from what [os.listdir(ARTICLES_DIR)] returns. *)
Definition pdf_files (listing : list str) : list str :=
  map (join ARTICLES_DIR) (filter is_pdf listing).

Section Run.

(** The output path and its library calls. *)
Variable File : Type.
Variable lib : Store File.

(** [str(v)] for a cell that is no string. *)
Variable str_of : value -> str.

(** [series.astype(str)] on one cell *)
Definition astype_str (v : value) : str :=
  match v with
  | JStr s => s
  | _ => str_of v
  end.

(** "Filter processed": the set [processed_files], as the list of its
    elements. *)
Definition processed_files (file : File) : list str :=
  if output_exists lib file then
    match pd_read_excel lib file with
    | Ok df_existing =>
        if mem SOURCE_FILE (df_columns df_existing)
        then map astype_str (column df_existing SOURCE_FILE)
        else []
    | Raise _ => []
    end
  else [].

(** [files_to_process], with [limit] the integer of the option when the
    option is given and not empty. *)
Definition files_to_process (file : File) (listing : list str)
    (limit : option Z) : list str :=
  let processed := processed_files file in
  let files :=
    filter (fun f => negb (mem (basename f) processed)) (pdf_files listing) in
  match limit with
  | Some n => slice_upto files n
  | None => files
  end.

(** [json.loads] and, for each path and attempt, how the exchange with
    the service goes. *)
Variable json_loads : str -> result value.
Variable exchange_of : str -> nat -> Exchange.

Definition max_retries : nat := 3.

(** The retry loop of [main] for one path, [remaining] attempts being left
    from [attempt] on. *)
Fixpoint retry_loop (remaining attempt : nat) (ALL_COLUMNS : list str)
    (results : list (dict value)) (file : File) (pdf_path : str)
  : File * result (list (dict value)) :=
  match remaining with
  | 0 => (file, Ok results)
  | S remaining' =>
      match extract_study_with_api json_loads (exchange_of pdf_path attempt)
              (basename pdf_path) with
      | RETRY =>
          retry_loop remaining' (S attempt) ALL_COLUMNS results file pdf_path
      | Data data =>
          if dict_truthy data then
            record_and_save lib ALL_COLUMNS results file data
          else
            retry_loop remaining' (S attempt) ALL_COLUMNS results file
              pdf_path
      | None_ =>
          retry_loop remaining' (S attempt) ALL_COLUMNS results file pdf_path
      end
  end.

Definition process_pdf (ALL_COLUMNS : list str) (results : list (dict value))
    (file : File) (pdf_path : str)
  : File * result (list (dict value)) :=
  retry_loop max_retries 0 ALL_COLUMNS results file pdf_path.


End Run.

End ApiMain.

Module BrowserMain.

Import TemplateParser Py OsPath Frames.

Definition ARTICLES_DIR : str := py "Articles".
Definition LBRACE : ascii := ascii_of_nat 123.
Definition RBRACE : ascii := ascii_of_nat 125.

(** [get_pdf_files], from what [os.listdir(ARTICLES_DIR)] returns. *)
Definition get_pdf_files (listing : list str) : list str :=
  map (join ARTICLES_DIR) (filter (fun f => endswith (lower f) (py ".pdf")) listing).

(** [s[start:stop]] for [0 <= start] and [0 <= stop] *)
Definition slice (s : str) (start stop : Z) : str :=
  firstn (Z.to_nat stop - Z.to_nat start) (skipn (Z.to_nat start) s).

(** "Parse JSON" of [extract_data_from_page]: the text handed to the
    decoder, [None] on the branch "No JSON found". *)
Definition json_str (last_response : str) : option str :=
  let start := PyStr.find last_response [LBRACE] in
  let end_ := (rfind_chr last_response RBRACE + 1)%Z in
  if negb (start =? -1)%Z && negb (end_ =? -1)%Z
  then Some (slice last_response start end_)
  else None.

Section Run.

Variable File : Type.
Variable lib : Store File.
Variable str_of : value -> str.
Variable json_loads : str -> result value.

(** The second [try] block of [extract_data_from_page] from the response
    on: the record, or [None]. *)
Definition parse_response (last_response basename : str)
  : option (dict value) :=
  match json_str last_response with
  | Some text =>
      match (data <- json_loads text ;;
             GeminiApiExtractor.setitem data GeminiExtractor.SOURCE_FILE
               (JStr basename)) with
      | Ok data => Some data
      | Raise _ => None
      end
  | None => None
  end.

(** [process_study_single_pass], from the outcome of the page on. *)
Definition process_study_single_pass (data : option (dict value))
  : list (dict value) :=
  match data with
  | Some d => if dict_truthy d then [d] else []
  | None => []
  end.

Definition astype_str (v : value) : str :=
  match v with
  | JStr s => s
  | _ => str_of v
  end.

(** "Resume Skip Logic": the recorded entries, then the files left. *)
Definition processed_files (df : DataFrame) : list str :=
  map astype_str (dropna (column df GeminiExtractor.SOURCE_FILE)).

Definition files_to_skip (processed : list str) (pdf_files : list str)
  : list str :=
  filter (fun pf =>
            existsb (fun recorded => contains recorded (basename pf)) processed)
         pdf_files.

Definition resume (file : File) (pdf_files : list str) : list str :=
  if output_exists lib file then
    match pd_read_excel lib file with
    | Ok existing_df =>
        if mem GeminiExtractor.SOURCE_FILE (df_columns existing_df) then
          let skip := files_to_skip (processed_files existing_df) pdf_files in
          filter (fun f => negb (mem f skip)) pdf_files
        else pdf_files
    | Raise _ => pdf_files
    end
  else pdf_files.

End Run.

End BrowserMain.

(** Auxiliary definitions for the properties of the code above. *)
Module Aux.

Import TemplateParser Py Spec.

(** The first row of a table reads as a header row. *)
Definition looks_like_header (row : Row) : bool :=
  match cells row with
  | [] => false
  | c0 :: _ =>
      contains (lower (strip c0)) (py "field")
      || contains (lower (strip c0)) (py "column")
  end.

(** The rows of a table below its header row, if it has one. *)
Definition body_rows (table : Table) : list Row :=
  match rows table with
  | [] => []
  | row :: rs => if looks_like_header row then rs else row :: rs
  end.

(** The field of one table row, if it gives one. *)
Definition row_fields (sec : str) (row : Row) : list TemplateField :=
  match cells row with
  | c0 :: c1 :: _ =>
      if truthy (strip c0) && negb (_is_likely_title (strip c0))
      then [mkField (strip c0) (strip c1) (strip sec)]
      else []
  | _ => []
  end.

(** A field whose three attributes are trimmed. *)
Definition trimmed (f : TemplateField) : Prop :=
  strip (name f) = name f
  /\ strip (description f) = description f
  /\ strip (section f) = section f.

(** No character of the text is [c]. *)
Definition lacks (c : ascii) (s : str) : Prop :=
  Forall (fun x => chr_eqb x c = false) s.

(** The text is white space only. *)
Definition blank (s : str) : Prop := Forall (fun x => isspace x = true) s.

(** No attempt of the three gives a record. *)
Definition no_data (r : GeminiApiExtractor.Extracted) : Prop :=
  match r with
  | GeminiApiExtractor.Data d => d = []
  | _ => True
  end.

(** The test of the Excel pass on one column label: the string it keeps,
    if it keeps the label. *)
Definition is_string_header (l : Label) : option str :=
  match l with
  | LStr s => if startswith s (py "Unnamed") then None else Some s
  | LOther _ => None
  end.



(** What the API extraction returns for a path at its [i]-th attempt. *)
Definition attempt (json_loads : str -> result value)
    (exchange_of : str -> nat -> GeminiApiExtractor.Exchange)
    (pdf_path : str) (i : nat) : GeminiApiExtractor.Extracted :=
  GeminiApiExtractor.extract_study_with_api json_loads
    (exchange_of pdf_path i) (OsPath.basename pdf_path).

End Aux.

(* ================================================================== *)
(** ** Facts about strings *)
(* ================================================================== *)

Unset Implicit Arguments.

Module StrFacts.

Import Spec.

Lemma chr_eqb_eq (a b : ascii) : chr_eqb a b = true <-> a = b.
Proof. unfold chr_eqb. apply Ascii.eqb_eq. Qed.

Lemma chr_eqb_refl (a : ascii) : chr_eqb a a = true.
Proof. apply chr_eqb_eq. reflexivity. Qed.

Lemma str_eqb_eq (a b : str) : str_eqb a b = true <-> a = b.
Proof.
  revert b. induction a as [|x a IH]; intros [|y b]; simpl; split;
    try discriminate; try reflexivity.
  - intros H. apply andb_true_iff in H as [Hx Ha].
    apply chr_eqb_eq in Hx. apply IH in Ha. congruence.
  - intros H. injection H as -> ->.
    rewrite chr_eqb_refl. simpl. apply IH. reflexivity.
Qed.

Lemma str_eqb_refl (a : str) : str_eqb a a = true.
Proof. apply str_eqb_eq. reflexivity. Qed.

Lemma str_eqb_neq (a b : str) : str_eqb a b = false <-> a <> b.
Proof.
  split.
  - intros H E. apply str_eqb_eq in E. congruence.
  - intros H. destruct (str_eqb a b) eqn:E; [|reflexivity].
    apply str_eqb_eq in E. contradiction.
Qed.

Lemma str_eqb_sym (a b : str) : str_eqb a b = str_eqb b a.
Proof.
  destruct (str_eqb a b) eqn:E.
  - apply str_eqb_eq in E. subst. symmetry. apply str_eqb_refl.
  - symmetry. apply str_eqb_neq. apply str_eqb_neq in E. congruence.
Qed.

Lemma mem_In (k : str) (l : list str) : Py.mem k l = true <-> In k l.
Proof.
  unfold Py.mem. rewrite existsb_exists. split.
  - intros [x [Hin Hx]]. apply str_eqb_eq in Hx. subst. exact Hin.
  - intros Hin. exists k. split; [exact Hin | apply str_eqb_refl].
Qed.

Lemma mem_not_In (k : str) (l : list str) : Py.mem k l = false <-> ~ In k l.
Proof.
  split.
  - intros H Hin. apply mem_In in Hin. congruence.
  - intros H. destruct (Py.mem k l) eqn:E; [|reflexivity].
    apply mem_In in E. contradiction.
Qed.

(** *** Stripping *)

Lemma lstrip_clean_head (s : str) : clean_head (lstrip s).
Proof.
  induction s as [|c s IH]; simpl; [exact I|].
  destruct (isspace c) eqn:E; [exact IH | simpl; exact E].
Qed.

Lemma lstrip_fixed (s : str) : clean_head s -> lstrip s = s.
Proof. destruct s as [|c s]; simpl; [reflexivity|]. intros ->. reflexivity. Qed.

Lemma lstrip_snoc (l : str) (c : ascii) :
  isspace c = false -> exists t, lstrip (l ++ [c]) = t ++ [c].
Proof.
  intros Hc. induction l as [|x l IH]; simpl.
  - rewrite Hc. exists []. reflexivity.
  - destruct (isspace x).
    + exact IH.
    + exists (x :: l). reflexivity.
Qed.

(** Stripping on the right keeps a first character that is no white
    space. *)
Lemma rstrip_cons (c : ascii) (s : str) :
  isspace c = false -> exists t, rstrip (c :: s) = c :: t.
Proof.
  intros Hc. unfold rstrip. simpl.
  destruct (lstrip_snoc (rev s) c Hc) as [t Ht].
  rewrite Ht, rev_app_distr. simpl. exists (rev t). reflexivity.
Qed.

Lemma rstrip_clean_head (s : str) : clean_head s -> clean_head (rstrip s).
Proof.
  destruct s as [|c s]; simpl.
  - intros _. exact I.
  - intros Hc. destruct (rstrip_cons c s Hc) as [t Ht]. rewrite Ht. exact Hc.
Qed.

Lemma rstrip_idem (s : str) : rstrip (rstrip s) = rstrip s.
Proof.
  unfold rstrip. rewrite rev_involutive.
  rewrite (lstrip_fixed _ (lstrip_clean_head (rev s))). reflexivity.
Qed.

Lemma strip_clean_head (s : str) : clean_head (strip s).
Proof. unfold strip. apply rstrip_clean_head, lstrip_clean_head. Qed.

Lemma strip_idem (s : str) : strip (strip s) = strip s.
Proof.
  unfold strip at 1. rewrite (lstrip_fixed _ (strip_clean_head s)).
  unfold strip. apply rstrip_idem.
Qed.

(** Stripping a text that starts with a character other than white space
    leaves that character in front. *)
Lemma strip_cons (c : ascii) (s : str) :
  isspace c = false -> exists t, strip (c :: s) = c :: t.
Proof.
  intros Hc. unfold strip. simpl. rewrite Hc. apply rstrip_cons. exact Hc.
Qed.

Lemma truthy_true (s : str) : truthy s = true <-> s <> [].
Proof. destruct s; simpl; split; congruence. Qed.

Lemma last_cons_default (A : Type) (l : list A) :
  forall x d : A, last (x :: l) d = last l x.
Proof.
  induction l as [|y l IH]; intros x d; [reflexivity|].
  change (last (x :: y :: l) d) with (last (y :: l) d).
  rewrite (IH y d), (IH y x). reflexivity.
Qed.

End StrFacts.

(* ================================================================== *)
(** ** The document-form parser *)
(* ================================================================== *)

Module WordFacts.

Import Re TemplateParser Spec StrFacts.

Lemma emitted_name (sec : str) (f : TemplateField) :
  emitted sec f -> name f <> [] /\ _is_likely_title (name f) = false.
Proof.
  intros (raw & desc & Hne & Hti & ->). simpl. rewrite strip_idem. split; assumption.
Qed.

Lemma emitted_section (sec : str) (f : TemplateField) :
  emitted sec f -> section f = strip sec.
Proof. intros (raw & desc & _ & _ & ->). reflexivity. Qed.

(** Group 1 of the field pattern starts where the text starts. *)
Lemma lazy_head_prefix (s : str) :
  forall g1 g g2, lazy_head g1 s = Some (g, g2) -> exists t, g = g1 ++ t.
Proof.
  induction s as [|c s IH]; intros g1 g g2; simpl; [discriminate|].
  destruct (if chr_eqb c COLON then ws_star_tail s else None) as [g2'|].
  - intros H. injection H as <- _. exists []. symmetry. apply app_nil_r.
  - destruct (chr_eqb c NL); [discriminate|].
    intros H. apply IH in H as [t ->]. exists (c :: t).
    rewrite <- app_assoc. reflexivity.
Qed.

Lemma match_field_head (c : ascii) (s g1 g2 : str) :
  match_field (c :: s) = Some (g1, g2) -> exists t, g1 = c :: t.
Proof.
  simpl. destruct (chr_eqb c NL); [discriminate|].
  intros H. apply lazy_head_prefix in H as [t ->]. exists t. reflexivity.
Qed.

(** The paragraph pass. *)
Lemma paragraph_step_cases (fields : list TemplateField) (sec para : str) :
  let st' := paragraph_step (fields, sec) para in
  (fst st' = fields \/ exists f, emitted sec f /\ fst st' = fields ++ [f])
  /\ snd st' = (if _is_section_header (strip para) then strip para else sec).
Proof.
  unfold paragraph_step.
  pose proof (strip_clean_head para) as Hhead.
  destruct (strip para) as [|c text] eqn:Htext.
  - simpl. split; [left; reflexivity | reflexivity].
  - cbn [truthy negb].
    destruct (_is_section_header (c :: text)).
    + simpl. split; [left; reflexivity | reflexivity].
    + destruct (match_field (c :: text)) as [[g1 g2]|] eqn:Hm.
      * destruct (_is_likely_title (strip g1)) eqn:Hti.
        -- simpl. split; [left; reflexivity | reflexivity].
        -- simpl. split; [|reflexivity]. right.
           eexists. split; [|reflexivity].
           exists g1, (strip g2). split; [|split; [exact Hti | reflexivity]].
           apply match_field_head in Hm as [t ->].
           destruct (strip_cons c t Hhead) as [t' ->]. discriminate.
      * simpl. split; [left; reflexivity | reflexivity].
Qed.

Lemma paragraph_fold_section (paras : list str) :
  forall fields sec,
    snd (fold_left paragraph_step paras (fields, sec))
    = last (filter _is_section_header (map strip paras)) sec.
Proof.
  induction paras as [|p paras IH]; intros fields sec; [reflexivity|].
  cbn [fold_left map filter].
  destruct (paragraph_step_cases fields sec p) as [_ Hsec].
  destruct (paragraph_step (fields, sec) p) as [fields' sec'].
  simpl in Hsec. rewrite IH, Hsec.
  destruct (_is_section_header (strip p)).
  - rewrite last_cons_default. reflexivity.
  - reflexivity.
Qed.

Lemma paragraph_pass_section (paras : list str) :
  snd (paragraph_pass paras) = last_section_header paras.
Proof. apply paragraph_fold_section. Qed.

(** The running section is trimmed text. *)
Lemma last_section_header_trimmed (paras : list str) :
  strip (last_section_header paras) = last_section_header paras.
Proof.
  unfold last_section_header.
  assert (H : Forall (fun s => strip s = s)
                (filter _is_section_header (map strip paras))).
  { apply Forall_forall. intros s Hs. apply filter_In in Hs as [Hs _].
    apply in_map_iff in Hs as [p [<- _]]. apply strip_idem. }
  revert H. generalize (filter _is_section_header (map strip paras)).
  intros l Hl.
  assert (Hd : strip (@nil ascii) = []) by reflexivity.
  revert Hd. generalize (@nil ascii) as d.
  induction Hl as [|x l Hx Hl IH]; intros d Hd; [exact Hd|].
  rewrite last_cons_default. apply IH. exact Hx.
Qed.

Lemma paragraph_fold_emitted (paras : list str) :
  forall fields sec,
    Forall (fun f => exists s, emitted s f) fields ->
    Forall (fun f => exists s, emitted s f)
           (fst (fold_left paragraph_step paras (fields, sec))).
Proof.
  induction paras as [|p paras IH]; intros fields sec Hf; [exact Hf|].
  cbn [fold_left].
  destruct (paragraph_step_cases fields sec p) as [Hfs _].
  destruct (paragraph_step (fields, sec) p) as [fields' sec'].
  simpl in Hfs. apply IH.
  destruct Hfs as [-> | (f & Hem & ->)]; [exact Hf|].
  apply Forall_app. split; [exact Hf|].
  constructor; [exists sec; exact Hem | constructor].
Qed.

Lemma paragraph_pass_emitted (paras : list str) :
  Forall (fun f => exists s, emitted s f) (fst (paragraph_pass paras)).
Proof. unfold paragraph_pass. apply paragraph_fold_emitted. constructor. Qed.

(** The table pass. *)
Lemma row_step_cases (sec : str) (i : nat) (row : Row)
    (fields fields' : list TemplateField) :
  row_step sec i row fields = Ok fields' ->
  fields' = fields \/ exists f, emitted sec f /\ fields' = fields ++ [f].
Proof.
  unfold row_step.
  destruct (if i =? 0 then _ else _) as [skip|e]; cbn [bind]; [|discriminate].
  destruct skip.
  - intros H. injection H as <-. left. reflexivity.
  - destruct (2 <=? List.length (cells row)).
    + destruct (truthy (strip (nth 0 (cells row) []))) eqn:Htr; cbn [andb].
      * destruct (_is_likely_title (strip (nth 0 (cells row) []))) eqn:Hti;
          cbn [negb]; intros H; injection H as <-; [left; reflexivity|].
        right. eexists. split; [|reflexivity].
        exists (nth 0 (cells row) []), (strip (nth 1 (cells row) [])).
        split; [apply truthy_true; exact Htr | split; [exact Hti | reflexivity]].
      * intros H. injection H as <-. left. reflexivity.
    + intros H. injection H as <-. left. reflexivity.
Qed.

Lemma rows_loop_cases (sec : str) (rs : list Row) :
  forall i fields fields',
    rows_loop sec i rs fields = Ok fields' ->
    exists new, fields' = fields ++ new /\ Forall (emitted sec) new.
Proof.
  induction rs as [|row rs IH]; intros i fields fields'; simpl.
  - intros H. injection H as <-. exists []. split; [symmetry; apply app_nil_r | constructor].
  - destruct (row_step sec i row fields) as [fields1|e] eqn:Hrow; simpl; [|discriminate].
    intros H. apply IH in H as (new & -> & Hnew).
    apply row_step_cases in Hrow as [-> | (f & Hf & ->)].
    + exists new. split; [reflexivity | exact Hnew].
    + exists (f :: new). split; [rewrite <- app_assoc; reflexivity|].
      constructor; assumption.
Qed.

Lemma parse_table_emitted (table : Table) (sec : str) (l : list TemplateField) :
  _parse_table table sec = Ok l -> Forall (emitted sec) l.
Proof.
  unfold _parse_table. intros H.
  apply rows_loop_cases in H as (new & -> & Hnew). exact Hnew.
Qed.

Lemma tables_loop_cases (sec : str) (ts : list Table) :
  forall fields fields',
    tables_loop sec ts fields = Ok fields' ->
    exists per_table,
      Forall2 (fun table l => _parse_table table sec = Ok l) ts per_table
      /\ fields' = fields ++ List.concat per_table.
Proof.
  induction ts as [|table ts IH]; intros fields fields'; simpl.
  - intros H. injection H as <-. exists []. split; [constructor|].
    symmetry. apply app_nil_r.
  - destruct (_parse_table table sec) as [l|e] eqn:Ht; simpl; [|discriminate].
    intros H. apply IH in H as (per & Hper & ->).
    exists (l :: per). split; [constructor; assumption|].
    simpl. rewrite app_assoc. reflexivity.
Qed.

(** The parser returns whenever the first row of every table has a cell. *)
Lemma row_step_total (sec : str) (i : nat) (row : Row)
    (fields : list TemplateField) :
  (i = 0 -> cells row <> []) ->
  exists fields', row_step sec i row fields = Ok fields'.
Proof.
  intros Hrow. unfold row_step.
  assert (Hskip : exists skip,
            (if i =? 0 then
               match cells row with
               | [] => Raise IndexError
               | c0 :: _ =>
                   Ok (contains (lower (strip c0)) (py "field")
                       || contains (lower (strip c0)) (py "column"))
               end
             else Ok false) = Ok skip).
  { destruct (i =? 0) eqn:Hi; [|eexists; reflexivity].
    apply Nat.eqb_eq in Hi. specialize (Hrow Hi).
    destruct (cells row); [contradiction | eexists; reflexivity]. }
  destruct Hskip as [skip ->]. cbn [bind].
  destruct skip; [eexists; reflexivity|].
  destruct (2 <=? List.length (cells row)); [|eexists; reflexivity].
  destruct (truthy _ && negb _); eexists; reflexivity.
Qed.

Lemma rows_loop_total (sec : str) (rs : list Row) :
  forall i fields,
    (i = 0 -> match rs with [] => True | row :: _ => cells row <> [] end) ->
    exists fields', rows_loop sec i rs fields = Ok fields'.
Proof.
  induction rs as [|row rs IH]; intros i fields Hfirst; simpl.
  - eexists; reflexivity.
  - destruct (row_step_total sec i row fields Hfirst) as [fields1 ->]. simpl.
    apply IH. discriminate.
Qed.

Lemma Word_parse_total (doc : Document) :
  Forall first_row_has_cell (tables doc) ->
  exists fields, Word_parse doc = Ok fields.
Proof.
  unfold Word_parse. destruct (paragraph_pass (paragraphs doc)) as [fields sec].
  generalize (tables doc). intros ts H. revert fields.
  induction H as [|table ts Ht Hts IH]; intros acc; simpl.
  - eexists; reflexivity.
  - destruct (rows_loop_total sec (rows table) 0 [] (fun _ => Ht)) as [l Hl].
    unfold _parse_table. rewrite Hl. simpl. apply IH.
Qed.

(** Every field of a parsed document was built from a trimmed, non-empty
    name that passed the title filter. *)
Lemma Word_parse_emitted (doc : Document) (fields : list TemplateField) :
  Word_parse doc = Ok fields ->
  Forall (fun f => exists s, emitted s f) fields.
Proof.
  unfold Word_parse.
  pose proof (paragraph_pass_emitted (paragraphs doc)) as Hp.
  destruct (paragraph_pass (paragraphs doc)) as [pf sec].
  simpl in Hp. intros H.
  apply tables_loop_cases in H as (per & Hper & ->).
  apply Forall_app. split; [exact Hp|].
  apply Forall_concat.
  induction Hper as [|table l ts per Ht _ IH]; constructor; [|exact IH].
  apply parse_table_emitted in Ht.
  eapply Forall_impl; [|exact Ht]. intros f Hf. exists sec. exact Hf.
Qed.

End WordFacts.

(* ================================================================== *)
(** ** Properties of template_parser.py *)
(* ================================================================== *)

Module TemplateParserProps.

Import Re TemplateParser Spec StrFacts WordFacts.

(** *** The section-header classifier *)

(** C3. A line that ends with a colon is never classified as a section
    header: the colon check comes first and decides alone, whatever the
    shape patterns, the upper-case test and the title-case test would say
    of the line. *)
Theorem colon_line_is_no_section_header (text : str) :
  endswith text (py ":") = true ->
  _is_section_header text = false.
Proof.
  intros Hcolon. unfold _is_section_header. rewrite Hcolon. reflexivity.
Qed.

(** An upper-case line that the rules below the colon check accept, and a
    title-case one. *)
Lemma colon_line_is_no_section_header_witness :
  endswith (py "STUDY DETAILS:") (py ":") = true
  /\ header_rules (py "STUDY DETAILS:") = true
  /\ header_rules (py "Study Details:") = true
  /\ _is_section_header (py "STUDY DETAILS:") = false.
Proof.
  split; [reflexivity|]. split; [reflexivity|]. split; [reflexivity|].
  apply (colon_line_is_no_section_header (py "STUDY DETAILS:")). reflexivity.
Defined.

(** *** The title-line filter *)

Lemma likely_title_false (text keyword : str) :
  _is_likely_title text = false ->
  In keyword title_keywords ->
  contains (lower text) keyword = false.
Proof.
  unfold _is_likely_title. intros H Hin.
  destruct (contains (lower text) keyword) eqn:E; [|reflexivity].
  assert (Hex : existsb (fun k => contains (lower text) k) title_keywords = true).
  { apply existsb_exists. exists keyword. split; assumption. }
  congruence.
Qed.

(** C4. No field that the Word parser returns has a name which, lower-cased,
    contains "template", "data extraction" or "meta-analysis"; this holds
    for the fields of the paragraph pass and for those of the tables. *)
Theorem word_fields_pass_title_filter (doc : Document)
    (fields : list TemplateField) :
  Word_parse doc = Ok fields ->
  Forall (fun f =>
            contains (lower (name f)) (py "template") = false
            /\ contains (lower (name f)) (py "data extraction") = false
            /\ contains (lower (name f)) (py "meta-analysis") = false)
         fields.
Proof.
  intros Hparse. apply Word_parse_emitted in Hparse.
  eapply Forall_impl; [|exact Hparse].
  intros f [sec Hem]. apply emitted_name in Hem as [_ Hti].
  repeat split; apply (likely_title_false _ _ Hti); simpl; auto.
Qed.

Lemma sample_document_parsed : Word_parse sample_document = Ok sample_fields.
Proof. vm_compute. reflexivity. Qed.

Lemma word_fields_pass_title_filter_witness :
  Word_parse sample_document = Ok sample_fields
  /\ Forall (fun f =>
               contains (lower (name f)) (py "template") = false
               /\ contains (lower (name f)) (py "data extraction") = false
               /\ contains (lower (name f)) (py "meta-analysis") = false)
            sample_fields.
Proof.
  split; [exact sample_document_parsed|].
  apply (word_fields_pass_title_filter sample_document sample_fields).
  vm_compute. reflexivity.
Defined.

(** *** The section of table fields *)

(** C7. Every field that comes from a table of the document, whichever
    table, carries the section that is current when the paragraph pass ends:
    the last section header of the paragraph stream, or the empty string when
    the stream has none.  The returned fields are those of the paragraph pass
    followed by those of each table, parsed under that one section. *)
Theorem table_fields_take_last_paragraph_section (doc : Document)
    (fields : list TemplateField) :
  Word_parse doc = Ok fields ->
  exists per_table : list (list TemplateField),
    Forall2 (fun table l =>
               _parse_table table (last_section_header (paragraphs doc)) = Ok l)
            (tables doc) per_table
    /\ fields = fst (paragraph_pass (paragraphs doc)) ++ List.concat per_table
    /\ Forall (Forall (fun f =>
                         section f = last_section_header (paragraphs doc)))
              per_table.
Proof.
  unfold Word_parse.
  pose proof (paragraph_pass_section (paragraphs doc)) as Hsec.
  destruct (paragraph_pass (paragraphs doc)) as [pf sec]. simpl in Hsec.
  subst sec. intros H.
  apply tables_loop_cases in H as (per & Hper & ->).
  exists per. split; [exact Hper | split; [reflexivity|]].
  induction Hper as [|table l ts per' Ht _ IH]; constructor; [|exact IH].
  apply parse_table_emitted in Ht.
  eapply Forall_impl; [|exact Ht].
  intros f Hf. apply emitted_section in Hf.
  rewrite Hf. apply last_section_header_trimmed.
Qed.

Lemma table_fields_take_last_paragraph_section_witness :
  last_section_header (paragraphs sample_document) = py "OUTCOMES"
  /\ exists per_table : list (list TemplateField),
       Forall2 (fun table l =>
                  _parse_table table
                    (last_section_header (paragraphs sample_document)) = Ok l)
               (tables sample_document) per_table
       /\ sample_fields
          = fst (paragraph_pass (paragraphs sample_document))
            ++ List.concat per_table
       /\ Forall (Forall (fun f =>
                            section f
                            = last_section_header (paragraphs sample_document)))
                 per_table.
Proof.
  split; [vm_compute; reflexivity|].
  apply (table_fields_take_last_paragraph_section sample_document sample_fields).
  vm_compute. reflexivity.
Defined.

(** *** Empty names *)

(** Both passes of the Word parser emit fields with a non-empty trimmed
    name only. *)
Lemma word_names_not_empty (doc : Document) (fields : list TemplateField) :
  Word_parse doc = Ok fields ->
  Forall (fun f => strip (name f) <> []) fields.
Proof.
  intros Hparse. apply Word_parse_emitted in Hparse.
  eapply Forall_impl; [|exact Hparse].
  intros f (sec & raw & desc & Hne & _ & ->). simpl.
  rewrite !strip_idem. exact Hne.
Qed.

(** C10. The Excel pass keeps a header that is a string and does not start
    with "Unnamed" without looking at what trimming leaves of it: a sheet
    [S1] whose header cell holds one space yields a field with the empty
    name. *)
Theorem excel_blank_header_yields_empty_name :
  Excel_parse [mkSheet (py "S1") [LStr (py " ")]] = [mkField [] [] (py "S1")]
  /\ exists f, In f (Excel_parse [mkSheet (py "S1") [LStr (py " ")]])
               /\ strip (name f) = [].
Proof.
  split; [vm_compute; reflexivity|].
  exists (mkField [] [] (py "S1")). split; [left|]; vm_compute; reflexivity.
Qed.

(** *** The tabular parser *)

Lemma fold_left_app_flat_map (A B : Type) (f : A -> list B) (l : list A) :
  forall acc, fold_left (fun acc x => acc ++ f x) l acc = acc ++ flat_map f l.
Proof.
  induction l as [|x l IH]; intros acc; simpl.
  - symmetry. apply app_nil_r.
  - rewrite IH. symmetry. apply app_assoc.
Qed.

Lemma Excel_parse_sheets (xl : Workbook) :
  Excel_parse xl = flat_map sheet_fields xl.
Proof.
  unfold Excel_parse. rewrite fold_left_app_flat_map. reflexivity.
Qed.

Lemma startswith_prefix (p q : str) :
  forall s, startswith s (p ++ q) = true -> startswith s p = true.
Proof.
  induction p as [|c p IH]; intros s; [destruct s; reflexivity|].
  destruct s as [|x s]; cbn [app startswith]; [discriminate|].
  intros H. apply andb_true_iff in H as [Hc Hs].
  rewrite Hc. apply IH. exact Hs.
Qed.

Lemma placeholder_is_unnamed (s : str) :
  is_placeholder s = true -> startswith s (py "Unnamed") = true.
Proof.
  unfold is_placeholder. intros H.
  apply andb_true_iff in H as [H _]. apply andb_true_iff in H as [H _].
  apply (startswith_prefix (py "Unnamed") (py ": ")). exact H.
Qed.

(** Where every header that starts with "Unnamed" is one that pandas made
    up, the sheet gives the fields the specification says. *)
Lemma sheet_fields_claimed (sh : Sheet) :
  (forall s, In (LStr s) (columns sh) ->
             startswith s (py "Unnamed") = true -> is_placeholder s = true) ->
  sheet_fields sh = claimed_sheet_fields sh.
Proof.
  unfold sheet_fields, claimed_sheet_fields.
  induction (columns sh) as [|l ls IH]; intros H; [reflexivity|].
  cbn [flat_map]. rewrite IH by (intros s Hs; apply H; right; exact Hs).
  f_equal. destruct l as [s|n]; [|reflexivity].
  destruct (startswith s (py "Unnamed")) eqn:Hu; cbn [negb].
  - rewrite (H s (or_introl eq_refl) Hu). reflexivity.
  - destruct (is_placeholder s) eqn:Hp; [|reflexivity].
    apply placeholder_is_unnamed in Hp. congruence.
Qed.

(** C6. The workbook with sheet [S1] (columns [A], [B]) and sheet [S2]
    (column [C]) yields exactly the fields [A] and [B] of section [S1] and
    [C] of section [S2], in that order, with empty descriptions; and on every
    workbook in which only the made-up labels start with "Unnamed" the
    parser returns, sheet after sheet and column after column, one field per
    string header that is no made-up label.  A header typed by the author
    that starts with "Unnamed" is dropped as well: for the sheet [S1] with
    the headers [Unnamed thing] and [A] the parser returns the field [A]
    alone, where the specification gives both. *)
Theorem excel_drops_authored_unnamed_header :
  Excel_parse sample_workbook
  = [ mkField (py "A") [] (py "S1"); mkField (py "B") [] (py "S1");
      mkField (py "C") [] (py "S2") ]
  /\ (forall xl : Workbook,
        only_placeholders_unnamed xl -> Excel_parse xl = claimed_excel xl)
  /\ Excel_parse unnamed_workbook = [mkField (py "A") [] (py "S1")]
  /\ claimed_excel unnamed_workbook
     = [mkField (py "Unnamed thing") [] (py "S1"); mkField (py "A") [] (py "S1")].
Proof.
  split; [vm_compute; reflexivity|].
  split; [|split; vm_compute; reflexivity].
  intros xl Hxl. rewrite Excel_parse_sheets. unfold claimed_excel.
  induction xl as [|sh xl IH]; [reflexivity|].
  cbn [flat_map]. rewrite IH.
  - rewrite sheet_fields_claimed; [reflexivity|].
    intros s Hs. apply (Hxl sh s); [left; reflexivity | exact Hs].
  - intros sh' s Hsh. apply Hxl. right. exact Hsh.
Qed.

Lemma excel_drops_authored_unnamed_header_witness :
  Excel_parse [mkSheet (py "S1") [LStr (py "A"); LStr (py "Unnamed: 1");
                                  LOther 7; LStr (py "B")]]
  = [mkField (py "A") [] (py "S1"); mkField (py "B") [] (py "S1")].
Proof.
  rewrite (proj1 (proj2 excel_drops_authored_unnamed_header)
             [mkSheet (py "S1") [LStr (py "A"); LStr (py "Unnamed: 1");
                                 LOther 7; LStr (py "B")]]).
  - vm_compute. reflexivity.
  - intros sh s [<- | []] Hs Hu.
    cbn [columns] in Hs.
    destruct Hs as [E | [E | [E | [E | []]]]]; try discriminate E;
      injection E as <-; solve [reflexivity | discriminate Hu].
Defined.

(** *** The facade *)




End TemplateParserProps.

(* ================================================================== *)
(** ** Properties of the extraction front-ends *)
(* ================================================================== *)

Module ExtractorProps.

Import TemplateParser Py Spec StrFacts.

(** *** Response cleaning *)

Lemma startswith_newline (s : str) :
  startswith s [NL] = match s with [] => false | c :: _ => chr_eqb c NL end.
Proof.
  destruct s as [|c s]; [reflexivity|]. cbn [startswith].
  replace (startswith s []) with true by (destruct s; reflexivity).
  rewrite andb_true_r. unfold chr_eqb. apply Ascii.eqb_sym.
Qed.

(** [find] returns [-1] on a text of one line and otherwise the index after
    which the second line starts. *)
Lemma find_newline (s : str) :
  forall i : Z,
    (0 <= i)%Z ->
    if has_newline s then
      exists k : nat,
        find_from i s [NL] = (i + Z.of_nat k)%Z
        /\ skipn (S k) s = drop_first_line s
    else find_from i s [NL] = (-1)%Z.
Proof.
  induction s as [|c s IH]; intros i Hi; [reflexivity|].
  cbn [has_newline find_from drop_first_line].
  rewrite startswith_newline.
  destruct (chr_eqb c NL); cbn [orb].
  - exists 0. split; [lia | reflexivity].
  - specialize (IH (i + 1)%Z ltac:(lia)).
    destruct (has_newline s); [|exact IH].
    destruct IH as (k & Hk & Hskip). exists (S k). split; [lia | exact Hskip].
Qed.

Lemma slice_to_neg_spec (s : str) : slice_to_neg s 3 = drop_trailing_fence s.
Proof.
  unfold slice_to_neg, drop_trailing_fence.
  rewrite skipn_rev, rev_involutive. reflexivity.
Qed.

Lemma first_line_dropped (text : str) :
  (if negb (PyStr.find text [NL] =? -1)%Z
   then slice_from text (PyStr.find text [NL] + 1)%Z
   else text)
  = (if has_newline text then drop_first_line text else text).
Proof.
  unfold PyStr.find. pose proof (find_newline text 0%Z ltac:(lia)) as H.
  destruct (has_newline text).
  - destruct H as (k & -> & Hskip).
    replace (0 + Z.of_nat k =? -1)%Z with false by (symmetry; apply Z.eqb_neq; lia).
    cbn [negb]. unfold slice_from.
    replace (Z.to_nat (0 + Z.of_nat k + 1)) with (S k) by lia. exact Hskip.
  - rewrite H. reflexivity.
Qed.

Lemma clean_json_string_guarded (text : str) :
  GeminiApiExtractor.clean_json_string text = spec_clean_guarded text.
Proof.
  unfold GeminiApiExtractor.clean_json_string, spec_clean_guarded,
    GeminiApiExtractor.FENCE.
  destruct (startswith (strip text) (py "```")); [|reflexivity].
  cbv zeta. rewrite first_line_dropped.
  destruct (endswith _ (py "```")); [|reflexivity].
  rewrite slice_to_neg_spec. reflexivity.
Qed.

(** C5, as the code has it.  [clean_json_string] strips the text; if the
    text then begins with the fence, it drops the first line provided the
    text has more than one line (a text of a single line is kept whole) and
    then, if the text ends with the fence, drops that fence; it strips
    again.  The fenced example cleans to the bare object, and when a decoder
    accepts that object the record is returned with its source file.  A text
    that the decoder rejects after cleaning makes the extraction of that
    record return [None]; no exception leaves the function. *)
Theorem clean_json_string_state_machine :
  (forall text : str,
     GeminiApiExtractor.clean_json_string text = spec_clean_guarded text)
  /\ GeminiApiExtractor.clean_json_string EXAMPLE_RESPONSE = EXAMPLE_JSON
  /\ (forall (json_loads : str -> result value) (basename : str)
             (obj : dict value),
        json_loads EXAMPLE_JSON = Ok (JObj obj) ->
        GeminiApiExtractor.extract_study_with_api json_loads
          (GeminiApiExtractor.Response EXAMPLE_RESPONSE) basename
        = GeminiApiExtractor.Data
            (dict_set obj GeminiApiExtractor.SOURCE_FILE (JStr basename)))
  /\ (forall (json_loads : str -> result value) (text basename : str),
        json_loads (GeminiApiExtractor.clean_json_string text)
        = Raise JSONDecodeError ->
        GeminiApiExtractor.extract_study_with_api json_loads
          (GeminiApiExtractor.Response text) basename
        = GeminiApiExtractor.None_).
Proof.
  split; [exact clean_json_string_guarded|].
  assert (Hex : GeminiApiExtractor.clean_json_string EXAMPLE_RESPONSE
                = EXAMPLE_JSON) by (vm_compute; reflexivity).
  split; [exact Hex|]. split.
  - intros json_loads basename obj Hloads.
    unfold GeminiApiExtractor.extract_study_with_api,
      GeminiApiExtractor.parse_response.
    rewrite Hex, Hloads. reflexivity.
  - intros json_loads text basename Hloads.
    unfold GeminiApiExtractor.extract_study_with_api,
      GeminiApiExtractor.parse_response.
    rewrite Hloads. reflexivity.
Qed.

Lemma clean_json_string_state_machine_witness :
  GeminiApiExtractor.extract_study_with_api example_loads
    (GeminiApiExtractor.Response EXAMPLE_RESPONSE) (py "doc1.pdf")
  = GeminiApiExtractor.Data
      [(py "a", JNum (py "1")); (py "Source File", JStr (py "doc1.pdf"))]
  /\ GeminiApiExtractor.extract_study_with_api example_loads
       (GeminiApiExtractor.Response (py "not json at all")) (py "doc1.pdf")
     = GeminiApiExtractor.None_.
Proof.
  split.
  - apply (proj1 (proj2 (proj2 clean_json_string_state_machine))
             example_loads (py "doc1.pdf") [(py "a", JNum (py "1"))]).
    reflexivity.
  - apply (proj2 (proj2 (proj2 clean_json_string_state_machine))
             example_loads (py "not json at all") (py "doc1.pdf")).
    reflexivity.
Defined.

(** C5 as stated fails: a response that is the opening fence alone has one
    line; dropping the first line would leave nothing, the code keeps the
    text. *)
Lemma clean_json_string_keeps_single_line :
  GeminiApiExtractor.clean_json_string (py "```json") = py "```json"
  /\ spec_clean (py "```json") = []
  /\ GeminiApiExtractor.clean_json_string (py "```json")
     <> spec_clean (py "```json").
Proof.
  split; [vm_compute; reflexivity|].
  split; [vm_compute; reflexivity|].
  vm_compute. discriminate.
Qed.

(** *** Reconciliation *)

Lemma dict_get_set_same (V : Type) (d : dict V) (k : str) (v : V) :
  dict_get (dict_set d k v) k = Some v.
Proof.
  induction d as [|[k' v'] d IH]; simpl.
  - rewrite str_eqb_refl. reflexivity.
  - destruct (str_eqb k' k) eqn:E; simpl; rewrite E; [reflexivity | exact IH].
Qed.

Lemma dict_get_set_other (V : Type) (d : dict V) (k c : str) (v : V) :
  c <> k -> dict_get (dict_set d k v) c = dict_get d c.
Proof.
  intros Hne. induction d as [|[k' v'] d IH]; simpl.
  - replace (str_eqb k c) with false; [reflexivity|].
    symmetry. apply str_eqb_neq. congruence.
  - destruct (str_eqb k' k) eqn:E; simpl.
    + apply str_eqb_eq in E. subst k'.
      replace (str_eqb k c) with false; [reflexivity|].
      symmetry. apply str_eqb_neq. congruence.
    + destruct (str_eqb k' c); [reflexivity | exact IH].
Qed.

Lemma dict_set_has_key (V : Type) (d : dict V) (k : str) (v : V) :
  In k (dict_keys (dict_set d k v)).
Proof.
  induction d as [|[k' v'] d IH]; simpl.
  - left. reflexivity.
  - destruct (str_eqb k' k) eqn:E; simpl.
    + left. apply str_eqb_eq. exact E.
    + right. exact IH.
Qed.

Lemma cell_at_nulls (extra : list str) (c : str) :
  forall nulls : list value,
    Forall (eq JNull) nulls ->
    match cell_at extra nulls c with Some v => v | None => JNull end = JNull.
Proof.
  induction extra as [|k extra IH]; intros nulls Hn; [reflexivity|].
  destruct Hn as [|v nulls Hv Hn]; [reflexivity|]. simpl.
  destruct (str_eqb k c); [symmetry; exact Hv | apply IH; exact Hn].
Qed.

(** A cell of the frame built from a record, once padded with nulls. *)
Lemma cell_at_record (data : dict value) (extra : list str)
    (nulls : list value) (c : str) :
  Forall (eq JNull) nulls ->
  match cell_at (dict_keys data ++ extra) (map snd data ++ nulls) c with
  | Some v => v
  | None => JNull
  end = cell_of data c.
Proof.
  intros Hn. unfold cell_of.
  induction data as [|[k v] data IH]; simpl.
  - apply cell_at_nulls. exact Hn.
  - destruct (str_eqb k c); [reflexivity | exact IH].
Qed.

Lemma Forall_repeat_null (n : nat) : Forall (eq JNull) (repeat JNull n).
Proof. induction n; simpl; constructor; [reflexivity | assumption]. Qed.

(** Ensuring the columns only adds null columns on the right, and leaves
    every canonical field a column. *)
Lemma ensure_columns_shape (cols : list str) :
  forall df : DataFrame,
    exists extra : list str,
      fold_left GeminiApiExtractor.ensure_step cols df
      = mkDF (df_columns df ++ extra)
             (map (fun row => row ++ repeat JNull (List.length extra))
                  (df_rows df))
      /\ forall c, In c cols -> mem c (df_columns df ++ extra) = true.
Proof.
  induction cols as [|c cols IH]; intros df.
  - exists []. split; [|intros c []]. destruct df as [dc dr]. simpl.
    rewrite app_nil_r. f_equal.
    rewrite <- (map_id dr) at 1. apply map_ext. intros row.
    symmetry. apply app_nil_r.
  - cbn [fold_left]. unfold GeminiApiExtractor.ensure_step at 2.
    destruct (mem c (df_columns df)) eqn:Hmem; cbn [negb].
    + destruct (IH df) as (extra & Heq & Hin). exists extra.
      split; [exact Heq|]. intros c' [<- | Hc']; [|apply Hin; exact Hc'].
      apply mem_In. apply in_or_app. left. apply mem_In. exact Hmem.
    + destruct (IH (set_column_None df c)) as (extra & Heq & Hin).
      exists (c :: extra). rewrite Heq. clear Heq.
      unfold set_column_None in *. cbn [df_columns df_rows] in *.
      rewrite <- app_assoc in *. cbn [app] in *.
      split.
      * f_equal. rewrite map_map. apply map_ext. intros row.
        rewrite <- app_assoc. reflexivity.
      * intros c' [<- | Hc']; [|apply Hin; exact Hc'].
        apply mem_In. apply in_or_app. right. left. reflexivity.
Qed.

Lemma filter_all (A : Type) (f : A -> bool) (l : list A) :
  (forall x, In x l -> f x = true) -> filter f l = l.
Proof.
  induction l as [|x l IH]; intros H; [reflexivity|]. simpl.
  rewrite (H x (or_introl eq_refl)). f_equal.
  apply IH. intros y Hy. apply H. right. exact Hy.
Qed.

Lemma find_none (A : Type) (f : A -> bool) (l : list A) :
  (forall x, In x l -> f x = false) -> List.find f l = None.
Proof.
  induction l as [|x l IH]; intros H; [reflexivity|]. simpl.
  rewrite (H x (or_introl eq_refl)).
  apply IH. intros y Hy. apply H. right. exact Hy.
Qed.

Lemma reconciled_cell_spec (raw : dict value) (source c : str) :
  cell_of (dict_set raw (py "Source File") (JStr source)) c
  = reconciled_cell raw source c.
Proof.
  unfold reconciled_cell, cell_of.
  destruct (str_eqb c (py "Source File")) eqn:E.
  - apply str_eqb_eq in E. subst c. rewrite dict_get_set_same. reflexivity.
  - apply str_eqb_neq in E. rewrite dict_get_set_other by exact E. reflexivity.
Qed.

Lemma reconcile_shape (raw : dict value) (source : str)
    (ALL_COLUMNS : list str) :
  GeminiApiExtractor.reconcile ALL_COLUMNS
    (dict_set raw (py "Source File") (JStr source))
  = Ok (reconciled_row raw source ALL_COLUMNS).
Proof.
  unfold GeminiApiExtractor.reconcile, GeminiApiExtractor.ensure_columns.
  set (data := dict_set raw (py "Source File") (JStr source)).
  destruct (ensure_columns_shape ALL_COLUMNS (DataFrame_of_record data))
    as (extra & -> & Hin).
  cbn [DataFrame_of_record df_columns df_rows map] in *.
  rewrite (filter_all _ _ _ Hin).
  unfold select_columns. cbn [df_columns df_rows].
  rewrite find_none.
  - unfold reconciled_row. cbn [map].
    rewrite cell_at_record by apply Forall_repeat_null.
    unfold data at 1. rewrite reconciled_cell_spec.
    change (reconciled_cell raw source (py "Source File")) with (JStr source).
    erewrite map_ext; [reflexivity|].
    intros c. cbv beta.
    rewrite cell_at_record by apply Forall_repeat_null.
    apply reconciled_cell_spec.
  - intros c [<- | Hc].
    + apply negb_false_iff. apply mem_In. apply in_or_app. left.
      apply dict_set_has_key.
    + apply negb_false_iff. apply Hin. exact Hc.
Qed.

(** C2. For every raw record and every canonical field list, reconciliation
    yields one row whose columns are the reserved label [Source File]
    followed by the canonical fields in their order; the cell of a field is
    the value of the raw record, null when the record lacks the field; no
    other key of the record has a column.  This holds in both front-ends.
    For the fields [X, Y, Z] and the record with [X] = "1", [W] = "ignored"
    and the source [doc1], the row is [doc1, "1", null, null]. *)
Theorem reconcile_row_shape :
  (forall (raw : dict value) (source : str) (ALL_COLUMNS : list str),
     GeminiApiExtractor.reconcile ALL_COLUMNS
       (dict_set raw GeminiApiExtractor.SOURCE_FILE (JStr source))
     = Ok (reconciled_row raw source ALL_COLUMNS)
     /\ GeminiExtractor.reconcile ALL_COLUMNS
          (dict_set raw GeminiExtractor.SOURCE_FILE (JStr source))
        = Ok (reconciled_row raw source ALL_COLUMNS))
  /\ GeminiApiExtractor.reconcile [py "X"; py "Y"; py "Z"]
       [ (py "X", JStr (py "1")); (py "W", JStr (py "ignored"));
         (py "Source File", JStr (py "doc1")) ]
     = Ok (mkDF [py "Source File"; py "X"; py "Y"; py "Z"]
                [[JStr (py "doc1"); JStr (py "1"); JNull; JNull]]).
Proof.
  split; [|vm_compute; reflexivity].
  intros raw source ALL_COLUMNS. split.
  - apply reconcile_shape.
  - apply reconcile_shape.
Qed.

(** *** Appending to the persisted table *)

Section Saving.

Variable File : Type.
Variable lib : Store File.

(** The two front-ends save in the same way. *)
Lemma save_same (file : File) (df : DataFrame) :
  GeminiExtractor.save lib file df = GeminiApiExtractor.save lib file df.
Proof. reflexivity. Qed.

(** Either the write is not reached, the path is left as it was and the
    exception of the read or of the concatenation is passed on, or the
    outcome is that of the one write. *)
Lemma save_outcome (file : File) (df : DataFrame) :
  (exists e, GeminiApiExtractor.save lib file df = (file, Raise e))
  \/ (exists table, GeminiApiExtractor.save lib file df
                    = df_to_excel lib table file).
Proof.
  unfold GeminiApiExtractor.save.
  destruct (output_exists lib file); [|right; exists df; reflexivity].
  destruct (pd_read_excel lib file) as [existing|e];
    [|left; exists e; reflexivity].
  destruct (pd_concat lib existing df) as [table|e];
    [right; exists table | left; exists e]; reflexivity.
Qed.


End Saving.




(** *** Prompt synthesis *)

Lemma first_occurrences_snoc (l : list str) (x : str) :
  first_occurrences (l ++ [x])
  = if mem x (first_occurrences l) then first_occurrences l
    else first_occurrences l ++ [x].
Proof. unfold first_occurrences. rewrite fold_left_app. reflexivity. Qed.

Lemma first_occurrences_In (l : list str) (x : str) :
  In x (first_occurrences l) <-> In x l.
Proof.
  induction l as [|y l IH] using rev_ind; [reflexivity|].
  rewrite first_occurrences_snoc, in_app_iff.
  destruct (mem y (first_occurrences l)) eqn:E.
  - apply mem_In in E. rewrite IH. simpl. split; [tauto|].
    intros [H | [<- | []]]; [exact H | apply IH; exact E].
  - rewrite in_app_iff, IH. reflexivity.
Qed.

Lemma NoDup_snoc (A : Type) (l : list A) (x : A) :
  NoDup l -> ~ In x l -> NoDup (l ++ [x]).
Proof.
  induction 1 as [|y l Hy Hnd IH]; intros Hx; simpl.
  - constructor; [intros [] | constructor].
  - constructor.
    + rewrite in_app_iff. intros [H | [<- | []]]; [contradiction|].
      apply Hx. left. reflexivity.
    + apply IH. intros H. apply Hx. right. exact H.
Qed.

Lemma first_occurrences_NoDup (l : list str) : NoDup (first_occurrences l).
Proof.
  induction l as [|y l IH] using rev_ind; [constructor|].
  rewrite first_occurrences_snoc.
  destruct (mem y (first_occurrences l)) eqn:E; [exact IH|].
  apply NoDup_snoc; [exact IH | apply mem_not_In; exact E].
Qed.

(** Dictionaries given by their keys. *)
Section KeyedDict.
Variable V : Type.
Variable g : str -> V.

Lemma dict_get_keyed (ks : list str) (k0 : str) :
  dict_get (map (fun k => (k, g k)) ks) k0 = if mem k0 ks then Some (g k0) else None.
Proof.
  induction ks as [|k ks IH]; [reflexivity|]. simpl.
  rewrite (str_eqb_sym k0 k).
  destruct (str_eqb k k0) eqn:E; simpl; [|exact IH].
  apply str_eqb_eq in E. subst. reflexivity.
Qed.

Lemma dict_set_keyed (ks : list str) (k0 : str) (v : V) :
  NoDup ks -> In k0 ks ->
  dict_set (map (fun k => (k, g k)) ks) k0 v
  = map (fun k => (k, if str_eqb k k0 then v else g k)) ks.
Proof.
  induction 1 as [|k ks Hk Hnd IH]; intros Hin; [destruct Hin|]. simpl.
  destruct (str_eqb k k0) eqn:E.
  - f_equal. apply map_ext_in. intros k' Hk'.
    replace (str_eqb k' k0) with false; [reflexivity|].
    symmetry. apply str_eqb_neq. apply str_eqb_eq in E. subst k0.
    intros ->. contradiction.
  - f_equal. apply IH. destruct Hin as [-> | Hin]; [|exact Hin].
    rewrite str_eqb_refl in E. discriminate.
Qed.

Lemma dict_set_fresh (d : dict V) (k0 : str) (v : V) :
  ~ In k0 (dict_keys d) -> dict_set d k0 v = d ++ [(k0, v)].
Proof.
  induction d as [|[k v'] d IH]; intros Hk; [reflexivity|]. simpl.
  replace (str_eqb k k0) with false.
  - f_equal. apply IH. intros H. apply Hk. right. exact H.
  - symmetry. apply str_eqb_neq. intros ->. apply Hk. left. reflexivity.
Qed.

Lemma dict_get_last (d : dict V) (k0 : str) (v : V) :
  ~ In k0 (dict_keys d) -> dict_get (d ++ [(k0, v)]) k0 = Some v.
Proof.
  induction d as [|[k v'] d IH]; intros Hk; simpl.
  - rewrite str_eqb_refl. reflexivity.
  - replace (str_eqb k k0) with false.
    + apply IH. intros H. apply Hk. right. exact H.
    + symmetry. apply str_eqb_neq. intros ->. apply Hk. left. reflexivity.
Qed.

Lemma dict_set_last (d : dict V) (k0 : str) (v v' : V) :
  ~ In k0 (dict_keys d) ->
  dict_set (d ++ [(k0, v)]) k0 v' = d ++ [(k0, v')].
Proof.
  induction d as [|[k w] d IH]; intros Hk; simpl.
  - rewrite str_eqb_refl. reflexivity.
  - replace (str_eqb k k0) with false.
    + f_equal. apply IH. intros H. apply Hk. right. exact H.
    + symmetry. apply str_eqb_neq. intros ->. apply Hk. left. reflexivity.
Qed.

Lemma keyed_keys (ks : list str) : dict_keys (map (fun k => (k, g k)) ks) = ks.
Proof.
  unfold dict_keys. rewrite map_map. simpl. apply map_id.
Qed.

End KeyedDict.

Lemma section_key_label (f : TemplateField) :
  GeminiApiExtractor.section_key f = spec_label f.
Proof.
  unfold GeminiApiExtractor.section_key, spec_label.
  destruct (section f); reflexivity.
Qed.

Lemma fields_of_snoc (sec : str) (p : list TemplateField) (f : TemplateField) :
  fields_of sec (p ++ [f])
  = fields_of sec p ++ (if str_eqb (spec_label f) sec then [f] else []).
Proof.
  unfold fields_of. rewrite filter_app. simpl.
  destruct (str_eqb (spec_label f) sec); reflexivity.
Qed.

Lemma filter_none (A : Type) (f : A -> bool) (l : list A) :
  (forall x, In x l -> f x = false) -> filter f l = [].
Proof.
  induction l as [|x l IH]; intros H; [reflexivity|]. simpl.
  rewrite (H x (or_introl eq_refl)).
  apply IH. intros y Hy. apply H. right. exact Hy.
Qed.

Lemma fields_of_none (sec : str) (p : list TemplateField) :
  ~ In sec (map spec_label p) -> fields_of sec p = [].
Proof.
  intros H. apply filter_none. intros f Hf.
  apply str_eqb_neq. intros E. apply H. rewrite <- E.
  apply in_map. exact Hf.
Qed.

(** One step of the grouping loop keeps the dictionary in the grouped
    form. *)
Lemma group_step_grouped (p : list TemplateField) (f : TemplateField) :
  GeminiApiExtractor.group_step (grouped p) f = grouped (p ++ [f]).
Proof.
  unfold GeminiApiExtractor.group_step. rewrite section_key_label.
  assert (Hfo : first_occurrences (map spec_label (p ++ [f]))
                = if mem (spec_label f) (first_occurrences (map spec_label p))
                  then first_occurrences (map spec_label p)
                  else first_occurrences (map spec_label p) ++ [spec_label f]).
  { rewrite map_app. apply first_occurrences_snoc. }
  pose proof (first_occurrences_NoDup (map spec_label p)) as Hnd.
  unfold dict_mem, grouped. rewrite Hfo. clear Hfo.
  rewrite dict_get_keyed.
  destruct (mem (spec_label f) (first_occurrences (map spec_label p))) eqn:E;
    cbn [negb].
  - rewrite dict_get_keyed, E.
    rewrite dict_set_keyed by (try exact Hnd; apply mem_In; exact E).
    apply map_ext. intros sec. f_equal.
    rewrite fields_of_snoc, (str_eqb_sym sec).
    destruct (str_eqb (spec_label f) sec) eqn:Es.
    + apply str_eqb_eq in Es. subst sec. reflexivity.
    + symmetry. apply app_nil_r.
  - apply mem_not_In in E.
    assert (Hk : ~ In (spec_label f)
                   (dict_keys (map (fun sec => (sec, fields_of sec p))
                                 (first_occurrences (map spec_label p))))).
    { rewrite keyed_keys. exact E. }
    rewrite dict_set_fresh by exact Hk.
    rewrite dict_get_last by exact Hk.
    rewrite dict_set_last by exact Hk.
    rewrite map_app. cbn [map]. f_equal.
    + apply map_ext_in. intros sec Hsec. f_equal.
      rewrite fields_of_snoc.
      replace (str_eqb (spec_label f) sec) with false;
        [symmetry; apply app_nil_r|].
      symmetry. apply str_eqb_neq. intros <-. contradiction.
    + rewrite fields_of_snoc, str_eqb_refl.
      rewrite fields_of_none; [reflexivity|].
      intros H. apply E. apply first_occurrences_In. exact H.
Qed.

Lemma group_fields_grouped (fields : list TemplateField) :
  GeminiApiExtractor.group_fields fields = grouped fields.
Proof.
  unfold GeminiApiExtractor.group_fields.
  induction fields as [|f p IH] using rev_ind; [reflexivity|].
  rewrite fold_left_app. cbn [fold_left]. rewrite IH.
  apply group_step_grouped.
Qed.

Lemma fold_left_append (A : Type) (step : str -> A -> str) (g : A -> str)
    (l : list A) :
  (forall acc x, step acc x = acc ++ g x) ->
  forall acc, fold_left step l acc = acc ++ List.concat (map g l).
Proof.
  intros Hstep. induction l as [|x l IH]; intros acc; simpl.
  - symmetry. apply app_nil_r.
  - rewrite IH, Hstep. symmetry. apply app_assoc.
Qed.

Lemma api_field_line (prompt : str) (f : TemplateField) :
  GeminiApiExtractor.field_line prompt f = prompt ++ spec_bullet f.
Proof.
  unfold GeminiApiExtractor.field_line, spec_bullet.
  destruct (description f); reflexivity.
Qed.

Lemma browser_field_line (prompt : str) (f : TemplateField) :
  GeminiExtractor.field_line prompt f = prompt ++ spec_bullet f.
Proof.
  unfold GeminiExtractor.field_line, spec_bullet.
  destruct (description f); reflexivity.
Qed.

Lemma api_section_block (prompt : str) (kv : str * list TemplateField) :
  GeminiApiExtractor.section_block prompt kv
  = prompt ++ (spec_banner (fst kv)
               ++ List.concat (map spec_bullet (snd kv)) ++ []).
Proof.
  destruct kv as [sec fields]. unfold GeminiApiExtractor.section_block.
  rewrite (fold_left_append _ _ spec_bullet _ api_field_line).
  unfold spec_banner, GeminiApiExtractor.line. cbn [fst snd].
  rewrite app_nil_r, <- !app_assoc. reflexivity.
Qed.

Lemma browser_section_block (prompt : str) (kv : str * list TemplateField) :
  GeminiExtractor.section_block prompt kv
  = prompt ++ (spec_banner (fst kv)
               ++ List.concat (map spec_bullet (snd kv)) ++ [NL]).
Proof.
  destruct kv as [sec fields]. unfold GeminiExtractor.section_block.
  rewrite (fold_left_append _ _ spec_bullet _ browser_field_line).
  unfold spec_banner, GeminiExtractor.line. cbn [fst snd].
  rewrite <- !app_assoc. reflexivity.
Qed.

Lemma render_grouped (preamble after_section closing : str)
    (fields : list TemplateField) :
  (preamble
   ++ List.concat
        (map (fun kv : str * list TemplateField =>
                spec_banner (fst kv)
                ++ List.concat (map spec_bullet (snd kv)) ++ after_section)
             (grouped fields)))
  ++ closing
  = spec_prompt preamble after_section closing fields.
Proof.
  unfold spec_prompt, grouped. rewrite map_map. cbn [fst snd].
  rewrite <- app_assoc. reflexivity.
Qed.

(** C9. The prompt is a function of the loaded field list alone: in both
    front-ends [create_prompt] returns the preamble, then for each distinct
    section, in the order of first occurrence and with the empty section
    called "General", a banner and one bullet per field of that section in
    the original order ([name] alone when the description is empty, else
    [name: description]), then the closing; nothing else enters the result,
    so two calls with the same field list return the same characters. *)
Theorem create_prompt_is_rendering (fields : list TemplateField) :
  GeminiApiExtractor.create_prompt (Some fields)
  = Ok (spec_prompt GeminiApiExtractor.PREAMBLE []
          GeminiApiExtractor.CLOSING fields)
  /\ GeminiExtractor.create_prompt (Some fields)
     = Ok (spec_prompt GeminiExtractor.PREAMBLE [NL]
             GeminiExtractor.CLOSING fields)
  /\ NoDup (first_occurrences (map spec_label fields))
  /\ (forall sec,
        In sec (first_occurrences (map spec_label fields))
        <-> exists f, In f fields /\ spec_label f = sec)
  /\ (forall first second : result str,
        first = GeminiApiExtractor.create_prompt (Some fields) ->
        second = GeminiApiExtractor.create_prompt (Some fields) ->
        first = second)
  /\ (forall first second : result str,
        first = GeminiExtractor.create_prompt (Some fields) ->
        second = GeminiExtractor.create_prompt (Some fields) ->
        first = second).
Proof.
  split; [|split; [|split; [|split; [|split]]]].
  - unfold GeminiApiExtractor.create_prompt. f_equal.
    rewrite (fold_left_append _ _ _ _ api_section_block).
    rewrite group_fields_grouped. apply render_grouped.
  - unfold GeminiExtractor.create_prompt. f_equal.
    rewrite (fold_left_append _ _ _ _ browser_section_block).
    change (GeminiExtractor.group_fields fields)
      with (GeminiApiExtractor.group_fields fields).
    rewrite group_fields_grouped. apply render_grouped.
  - apply first_occurrences_NoDup.
  - intros sec. rewrite first_occurrences_In, in_map_iff.
    split; intros (f & H1 & H2); exists f; split; assumption.
  - intros first second -> ->. reflexivity.
  - intros first second -> ->. reflexivity.
Qed.

(** The sample field set has the sections [S] and [General], the latter
    once unnamed and once by name. *)
Lemma create_prompt_is_rendering_witness :
  first_occurrences (map spec_label sample_field_set) = [py "S"; py "General"]
  /\ GeminiApiExtractor.create_prompt (Some sample_field_set)
     = Ok (GeminiApiExtractor.PREAMBLE
           ++ GeminiApiExtractor.line "--- S ---"
           ++ GeminiApiExtractor.line "- a: d"
           ++ GeminiApiExtractor.line "- c"
           ++ GeminiApiExtractor.line "--- General ---"
           ++ GeminiApiExtractor.line "- b"
           ++ GeminiApiExtractor.line "- e"
           ++ GeminiApiExtractor.CLOSING)
  /\ GeminiApiExtractor.create_prompt (Some sample_field_set)
     = GeminiApiExtractor.create_prompt (Some sample_field_set).
Proof.
  split; [vm_compute; reflexivity|]. split.
  - rewrite (proj1 (create_prompt_is_rendering sample_field_set)).
    vm_compute. reflexivity.
  - apply (proj1 (proj2 (proj2 (proj2 (proj2
             (create_prompt_is_rendering sample_field_set)))))
             (GeminiApiExtractor.create_prompt (Some sample_field_set))
             (GeminiApiExtractor.create_prompt (Some sample_field_set)));
      reflexivity.
Defined.

End ExtractorProps.

(* ================================================================== *)
(** ** Further properties of template_parser.py *)
(* ================================================================== *)

Module ParserExtras.

Import Re TemplateParser Spec Aux StrFacts WordFacts.

(** *** Normal form of the fields *)

Lemma init_trimmed (n d s : str) : trimmed (TemplateField_init n d s).
Proof. unfold trimmed. simpl. rewrite !strip_idem. repeat split. Qed.

Lemma emitted_trimmed (sec : str) (f : TemplateField) :
  emitted sec f -> trimmed f.
Proof. intros (raw & desc & _ & _ & ->). apply init_trimmed. Qed.

Lemma sheet_fields_are_trimmed (sh : Sheet) : Forall trimmed (sheet_fields sh).
Proof.
  unfold sheet_fields. apply Forall_flat_map. apply Forall_forall.
  intros [s|n] _; [|constructor].
  destruct (negb (startswith s (py "Unnamed"))); [|constructor].
  constructor; [apply init_trimmed | constructor].
Qed.

Lemma Excel_parse_flat (xl : Workbook) :
  Excel_parse xl = flat_map sheet_fields xl.
Proof.
  unfold Excel_parse.
  rewrite (TemplateParserProps.fold_left_app_flat_map _ _ sheet_fields xl []).
  reflexivity.
Qed.

(** X1. Whatever template [parse_template] accepts, Word or Excel, the
    fields it returns are in normal form: name, description and section
    carry no white space at either end; and there is at least one field. *)
Theorem parsed_fields_are_trimmed (env : Env) (filepath : str)
    (fields : list TemplateField) :
  parse_template env filepath = Ok fields ->
  Forall trimmed fields /\ fields <> [].
Proof.
  unfold parse_template.
  destruct (os_path_exists env filepath); simpl; [|discriminate].
  destruct (detect_template_format filepath) as [fmt|]; [|discriminate].
  destruct (parser_parse env fmt filepath) as [fs|e] eqn:Hp; simpl;
    [|discriminate].
  destruct fs as [|f fs]; [discriminate|].
  intros H. injection H as <-. split; [|discriminate].
  destruct fmt; simpl in Hp.
  - destruct (docx_Document env filepath) as [doc|e]; simpl in Hp;
      [|discriminate].
    apply Word_parse_emitted in Hp.
    eapply Forall_impl; [|exact Hp].
    intros g [sec Hg]. eapply emitted_trimmed. exact Hg.
  - destruct (pd_ExcelFile env filepath) as [xl|e]; simpl in Hp;
      [|discriminate].
    injection Hp as <-. rewrite Excel_parse_flat.
    apply Forall_flat_map. apply Forall_forall. intros sh _.
    apply sheet_fields_are_trimmed.
Qed.

Lemma parsed_fields_are_trimmed_witness :
  Forall trimmed sample_fields /\ sample_fields <> [].
Proof.
  apply (parsed_fields_are_trimmed sample_env (py "t.docx") sample_fields).
  vm_compute. reflexivity.
Defined.

(** *** Section inheritance in the paragraph pass *)

Lemma paragraph_fold_grows (paras : list str) :
  forall fields sec,
    exists more,
      fst (fold_left paragraph_step paras (fields, sec)) = fields ++ more.
Proof.
  induction paras as [|p paras IH]; intros fields sec.
  - exists []. simpl. symmetry. apply app_nil_r.
  - cbn [fold_left].
    destruct (paragraph_step_cases fields sec p) as [Hfs _].
    destruct (paragraph_step (fields, sec) p) as [fields' sec'].
    simpl in Hfs. destruct (IH fields' sec') as [more Hmore].
    rewrite Hmore.
    destruct Hfs as [-> | (f & _ & ->)].
    + exists more. reflexivity.
    + exists (f :: more). rewrite <- app_assoc. reflexivity.
Qed.

Lemma paragraph_pass_app (pre post : list str) :
  paragraph_pass (pre ++ post)
  = fold_left paragraph_step post (paragraph_pass pre).
Proof. unfold paragraph_pass. apply fold_left_app. Qed.

(** X2. A paragraph that is no section header, matches the field pattern
    and passes the title filter yields a field whose section is the last
    section header among the paragraphs above it, the empty string when
    there is none above; the fields of the paragraphs above come before it
    and later paragraphs do not change it. *)
Theorem field_line_inherits_section (pre post : list str) (p g1 g2 : str) :
  _is_section_header (strip p) = false ->
  match_field (strip p) = Some (g1, g2) ->
  _is_likely_title (strip g1) = false ->
  exists later,
    fst (paragraph_pass (pre ++ p :: post))
    = fst (paragraph_pass pre)
      ++ mkField (strip g1) (strip g2) (last_section_header pre) :: later.
Proof.
  intros Hhdr Hmatch Htitle.
  rewrite paragraph_pass_app. cbn [fold_left].
  pose proof (paragraph_pass_section pre) as Hsec.
  destruct (paragraph_pass pre) as [fields sec]. simpl in Hsec. subst sec.
  cbn [fst].
  assert (Hstep : paragraph_step (fields, last_section_header pre) p
                  = (fields ++ [mkField (strip g1) (strip g2)
                                  (last_section_header pre)],
                     last_section_header pre)).
  { unfold paragraph_step. rewrite Hhdr, Hmatch, Htitle.
    destruct (strip p) as [|c text]; [discriminate Hmatch|].
    cbn [truthy negb]. unfold TemplateField_init.
    rewrite !strip_idem, last_section_header_trimmed. reflexivity. }
  rewrite Hstep.
  destruct (paragraph_fold_grows post
              (fields ++ [mkField (strip g1) (strip g2)
                            (last_section_header pre)])
              (last_section_header pre)) as [later Hlater].
  rewrite Hlater. exists later. rewrite <- app_assoc. reflexivity.
Qed.

Lemma field_line_inherits_section_witness :
  exists later,
    fst (paragraph_pass ([py "Age: in years"] ++ py "Sex: m or f"
                           :: [py "Study Details"; py "Year: of study"]))
    = fst (paragraph_pass [py "Age: in years"])
      ++ mkField (py "Sex") (py "m or f") [] :: later.
Proof.
  apply (field_line_inherits_section [py "Age: in years"]
           [py "Study Details"; py "Year: of study"]
           (py "Sex: m or f") (py "Sex") (py "m or f"));
    vm_compute; reflexivity.
Defined.

(** *** When the Word parser returns *)

Lemma first_row_has_cell_dec (table : Table) :
  {first_row_has_cell table} + {exists rs, rows table = mkRow [] :: rs}.
Proof.
  unfold first_row_has_cell. destruct (rows table) as [|[[|c cs]] rs].
  - left. exact I.
  - right. exists rs. reflexivity.
  - left. discriminate.
Qed.

Lemma parse_table_empty_first_row (table : Table) (sec : str) (rs : list Row) :
  rows table = mkRow [] :: rs -> _parse_table table sec = Raise IndexError.
Proof. unfold _parse_table. intros ->. reflexivity. Qed.

Lemma tables_loop_outcome (sec : str) (ts : list Table) :
  forall fields,
    (Forall first_row_has_cell ts ->
     exists fields', tables_loop sec ts fields = Ok fields')
    /\ (~ Forall first_row_has_cell ts ->
        tables_loop sec ts fields = Raise IndexError).
Proof.
  induction ts as [|table ts IH]; intros fields.
  - split; [intros _; eexists; reflexivity|].
    intros H. exfalso. apply H. constructor.
  - cbn [tables_loop].
    destruct (first_row_has_cell_dec table) as [Hok | [rs Hrs]].
    + destruct (rows_loop_total sec (rows table) 0 [] (fun _ => Hok))
        as [l Hl].
      unfold _parse_table. rewrite Hl. cbn [bind].
      destruct (IH (fields ++ l)) as [IHok IHbad]. split.
      * intros H. apply IHok. inversion H. assumption.
      * intros H. apply IHbad. intros Hts. apply H. constructor; assumption.
    + rewrite (parse_table_empty_first_row table sec rs Hrs). cbn [bind].
      split; [|reflexivity].
      intros H. inversion H as [|t' ts' Ht Hts]. subst.
      unfold first_row_has_cell in Ht. rewrite Hrs in Ht.
      exfalso. apply Ht. reflexivity.
Qed.

(** X3. The Word parser returns a field list exactly when the first row of
    every table of the document has at least one cell; when some table
    starts with a row without cells, reading [row.cells[0]] raises
    [IndexError] and no field list is returned, whatever the paragraphs
    are. *)
Theorem word_parse_returns_iff_first_rows_have_cells (doc : Document) :
  (Forall first_row_has_cell (tables doc) ->
   exists fields, Word_parse doc = Ok fields)
  /\ (~ Forall first_row_has_cell (tables doc) ->
      Word_parse doc = Raise IndexError).
Proof.
  unfold Word_parse.
  destruct (paragraph_pass (paragraphs doc)) as [fields sec].
  apply tables_loop_outcome.
Qed.

Lemma word_parse_returns_iff_first_rows_have_cells_witness :
  (exists fields, Word_parse sample_document = Ok fields)
  /\ Word_parse (mkDocument [py "Age: in years"]
                   [mkTable [mkRow []; mkRow [py "Sex"; py "m or f"]]])
     = Raise IndexError.
Proof.
  split.
  - apply (proj1 (word_parse_returns_iff_first_rows_have_cells
                    sample_document)).
    repeat constructor. discriminate.
  - apply (proj2 (word_parse_returns_iff_first_rows_have_cells
                    (mkDocument [py "Age: in years"]
                       [mkTable [mkRow []; mkRow [py "Sex"; py "m or f"]]]))).
    intros H. inversion H as [|t ts Ht Hts]. apply Ht. reflexivity.
Defined.

(** *** The rows of a table *)

Lemma row_step_later (sec : str) (i : nat) (row : Row)
    (fields : list TemplateField) :
  row_step sec (S i) row fields = Ok (fields ++ row_fields sec row).
Proof.
  unfold row_step, row_fields. cbn [Nat.eqb bind].
  destruct (cells row) as [|c0 [|c1 cs]]; cbn [List.length Nat.leb nth].
  - rewrite app_nil_r. reflexivity.
  - rewrite app_nil_r. reflexivity.
  - destruct (truthy (strip c0) && negb (_is_likely_title (strip c0))).
    + unfold TemplateField_init. rewrite !strip_idem. reflexivity.
    + rewrite app_nil_r. reflexivity.
Qed.

Lemma rows_loop_later (sec : str) (rs : list Row) :
  forall i fields,
    rows_loop sec (S i) rs fields
    = Ok (fields ++ flat_map (row_fields sec) rs).
Proof.
  induction rs as [|row rs IH]; intros i fields; simpl.
  - rewrite app_nil_r. reflexivity.
  - rewrite row_step_later. cbn [bind]. rewrite IH, <- app_assoc. reflexivity.
Qed.

(** X4. For a table whose first row has a cell, [_parse_table] returns, in
    row order, one field for every row below the header row that has at
    least two cells, a non-empty trimmed first cell and passes the title
    filter (name the first cell, description the second, both trimmed);
    every other row gives nothing.  The first row counts as a header row,
    and is left out, exactly when its first cell, trimmed and lower-cased,
    contains "field" or "column". *)
Theorem parse_table_is_row_filter (table : Table) (sec : str) :
  first_row_has_cell table ->
  _parse_table table sec = Ok (flat_map (row_fields sec) (body_rows table)).
Proof.
  unfold first_row_has_cell, _parse_table, body_rows, looks_like_header.
  destruct (rows table) as [|row rs]; [reflexivity|].
  intros Hrow. cbn [rows_loop].
  destruct (cells row) as [|c0 cs] eqn:Hc; [contradiction|].
  unfold row_step at 1. rewrite Hc. cbn [Nat.eqb bind].
  destruct (contains (lower (strip c0)) (py "field")
            || contains (lower (strip c0)) (py "column")).
  - cbn [bind]. rewrite rows_loop_later. reflexivity.
  - cbn [flat_map]. unfold row_fields at 1. rewrite Hc.
    destruct cs as [|c1 cs]; cbn [List.length Nat.leb nth].
    + cbn [bind]. rewrite rows_loop_later. reflexivity.
    + destruct (truthy (strip c0) && negb (_is_likely_title (strip c0))).
      * cbn [bind]. rewrite rows_loop_later.
        unfold TemplateField_init. rewrite !strip_idem. reflexivity.
      * cbn [bind]. rewrite rows_loop_later. reflexivity.
Qed.

Lemma parse_table_is_row_filter_witness :
  _parse_table
    (mkTable [ mkRow [py "Field of study"; py "discipline"];
               mkRow [py "Field strength"; py "in tesla"];
               mkRow [py "solo"]; mkRow [py " "; py "x"] ])
    (py "MRI")
  = Ok [mkField (py "Field strength") (py "in tesla") (py "MRI")].
Proof.
  rewrite (parse_table_is_row_filter
             (mkTable [ mkRow [py "Field of study"; py "discipline"];
                        mkRow [py "Field strength"; py "in tesla"];
                        mkRow [py "solo"]; mkRow [py " "; py "x"] ])
             (py "MRI")).
  - vm_compute. reflexivity.
  - discriminate.
Defined.

(** *** The sheets of a workbook *)

Lemma sheet_fields_length (sh : Sheet) :
  List.length (sheet_fields sh) <= List.length (columns sh).
Proof.
  unfold sheet_fields. induction (columns sh) as [|l ls IH]; [apply le_n|].
  cbn [flat_map]. rewrite length_app. cbn [List.length].
  destruct l as [s|n]; [|cbn [List.length Nat.add]; lia].
  destruct (negb (startswith s (py "Unnamed"))); cbn [List.length Nat.add]; lia.
Qed.

Lemma sheet_fields_nil (sh : Sheet) :
  sheet_fields sh = []
  <-> Forall (fun l => is_string_header l = None) (columns sh).
Proof.
  unfold sheet_fields. induction (columns sh) as [|l ls IH].
  - split; [constructor | reflexivity].
  - cbn [flat_map]. split.
    + intros H. apply app_eq_nil in H as [Hl Hls]. constructor.
      * destruct l as [s|n]; [|reflexivity]. unfold is_string_header.
        destruct (startswith s (py "Unnamed")); [reflexivity|].
        discriminate Hl.
      * apply IH. exact Hls.
    + intros H. inversion H as [|l' ls' Hl Hls]. subst.
      rewrite (proj2 IH Hls), app_nil_r.
      destruct l as [s|n]; [|reflexivity]. unfold is_string_header in Hl.
      destruct (startswith s (py "Unnamed")); [reflexivity | discriminate].
Qed.

(** X5. The Excel parser works sheet by sheet: the fields of a workbook
    made of two runs of sheets are the fields of the first run followed by
    those of the second, nothing being merged or dropped across sheets, and
    a workbook never yields more fields than it has columns. *)
Theorem excel_parse_is_sheetwise (xl1 xl2 : Workbook) :
  Excel_parse (xl1 ++ xl2) = Excel_parse xl1 ++ Excel_parse xl2
  /\ List.length (Excel_parse xl1)
     <= list_sum (map (fun sh => List.length (columns sh)) xl1).
Proof.
  rewrite !Excel_parse_flat. split; [apply flat_map_app|].
  induction xl1 as [|sh xl IH]; [apply le_n|].
  cbn [flat_map map]. rewrite length_app.
  unfold list_sum in *. cbn [fold_right].
  pose proof (sheet_fields_length sh). lia.
Qed.

Lemma Excel_parse_nil (xl : Workbook) :
  Excel_parse xl = []
  <-> Forall (fun sh => Forall (fun l => is_string_header l = None)
                               (columns sh)) xl.
Proof.
  rewrite Excel_parse_flat. induction xl as [|sh xl IH].
  - split; [constructor | reflexivity].
  - cbn [flat_map]. split.
    + intros H. apply app_eq_nil in H as [Hsh Hxl].
      constructor; [apply sheet_fields_nil; exact Hsh | apply IH; exact Hxl].
    + intros H. inversion H as [|sh' xl' Hsh Hxl]. subst.
      rewrite (proj2 (sheet_fields_nil sh) Hsh), (proj2 IH Hxl). reflexivity.
Qed.

(** X6. For an existing spreadsheet that pandas can open, [parse_template]
    fails with the "No fields found" [ValueError] exactly when every column
    label of every sheet is skipped, that is, is no string or starts with
    "Unnamed"; a workbook without sheets or with blank header rows only is
    such a case. *)
Theorem blank_workbook_is_empty_template (env : Env) (filepath : str)
    (xl : Workbook) :
  os_path_exists env filepath = true ->
  detect_template_format filepath = Some excel ->
  pd_ExcelFile env filepath = Ok xl ->
  (parse_template env filepath
   = Raise (ValueError (py "No fields found in template: " ++ filepath))
   <-> Forall (fun sh => Forall (fun l => is_string_header l = None)
                                (columns sh)) xl).
Proof.
  intros Hex Hfmt Hxl. unfold parse_template.
  rewrite Hex, Hfmt. simpl. rewrite Hxl. simpl.
  rewrite <- Excel_parse_nil.
  destruct (Excel_parse xl) as [|f fs]; split; intros H;
    try reflexivity; discriminate H.
Qed.

Lemma blank_workbook_is_empty_template_witness :
  parse_template
    (mkEnv (fun _ => true) (fun _ => Raise (LibraryError []))
           (fun _ => Ok [mkSheet (py "Sheet1")
                           [LStr (py "Unnamed: 0"); LOther 2024]]))
    (py "blank.XLSX")
  = Raise (ValueError (py "No fields found in template: blank.XLSX")).
Proof.
  apply (proj2 (blank_workbook_is_empty_template
                  (mkEnv (fun _ => true) (fun _ => Raise (LibraryError []))
                     (fun _ => Ok [mkSheet (py "Sheet1")
                                     [LStr (py "Unnamed: 0"); LOther 2024]]))
                  (py "blank.XLSX")
                  [mkSheet (py "Sheet1") [LStr (py "Unnamed: 0"); LOther 2024]]
                  eq_refl eq_refl eq_refl)).
  repeat constructor.
Defined.

(** *** Letter case in the format detector *)

Lemma lower_chr_keeps (c x : ascii) :
  isupper_chr c = false -> islower_chr c = false ->
  chr_eqb (lower_chr x) c = chr_eqb x c.
Proof.
  intros Hu Hl. unfold lower_chr.
  destruct (isupper_chr x) eqn:Hx; [|reflexivity].
  destruct (chr_eqb x c) eqn:E1.
  - apply chr_eqb_eq in E1. subst. congruence.
  - destruct (chr_eqb (ascii_of_nat (code x + 32)) c) eqn:E2; [|reflexivity].
    apply chr_eqb_eq in E2. subst c. exfalso.
    destruct x as [[] [] [] [] [] [] [] []]; vm_compute in Hx, Hl;
      discriminate.
Qed.

Lemma lower_chr_idem (x : ascii) : lower_chr (lower_chr x) = lower_chr x.
Proof. destruct x as [[] [] [] [] [] [] [] []]; vm_compute; reflexivity. Qed.

Lemma lower_idem (s : str) : lower (lower s) = lower s.
Proof.
  unfold lower. rewrite map_map. apply map_ext. apply lower_chr_idem.
Qed.

Lemma rfind_lower (c : ascii) (s : str) :
  isupper_chr c = false -> islower_chr c = false ->
  forall i last,
    rfind_chr_from i (lower s) c last = rfind_chr_from i s c last.
Proof.
  intros Hu Hl. induction s as [|x s IH]; intros i last; [reflexivity|].
  cbn [lower map rfind_chr_from]. fold (lower s).
  rewrite (lower_chr_keeps c x Hu Hl). apply IH.
Qed.

Lemma has_non_dot_lower (s : str) :
  forall lo hi i, has_non_dot (lower s) lo hi i = has_non_dot s lo hi i.
Proof.
  induction s as [|x s IH]; intros lo hi i; [reflexivity|].
  cbn [lower map has_non_dot]. fold (lower s).
  rewrite (lower_chr_keeps DOT x eq_refl eq_refl), IH. reflexivity.
Qed.

Lemma splitext_lower (p : str) :
  splitext_ext (lower p) = lower (splitext_ext p).
Proof.
  unfold splitext_ext, rfind_chr.
  rewrite !(rfind_lower SLASH p eq_refl eq_refl).
  rewrite !(rfind_lower DOT p eq_refl eq_refl).
  rewrite has_non_dot_lower.
  destruct (_ && _); [|reflexivity].
  unfold slice_from, lower. apply skipn_map.
Qed.

(** X7. The detected format does not depend on letter case anywhere in the
    path: two paths that agree once lower-cased are given the same format. *)
Theorem detect_format_ignores_case (p q : str) :
  lower p = lower q ->
  detect_template_format p = detect_template_format q.
Proof.
  intros H. unfold detect_template_format.
  rewrite <- (lower_idem (splitext_ext p)), <- (lower_idem (splitext_ext q)).
  rewrite <- !splitext_lower, H. reflexivity.
Qed.

Lemma detect_format_ignores_case_witness :
  detect_template_format (py "Forms/Template.DocX") = Some word.
Proof.
  rewrite (detect_format_ignores_case (py "Forms/Template.DocX")
             (py "forms/template.docx")); reflexivity.
Defined.

(** *** Splitting a field line *)

Lemma dot_star_whole (s : str) :
  lacks NL s -> dot_star_dollar s = Some s.
Proof.
  induction 1 as [|c s Hc Hs IH]; [reflexivity|].
  cbn [dot_star_dollar]. rewrite Hc, IH. reflexivity.
Qed.

Lemma ws_star_tail_lstrip (s : str) :
  lacks NL s -> ws_star_tail s = Some (lstrip s).
Proof.
  induction 1 as [|c s Hc Hs IH]; [reflexivity|].
  cbn [ws_star_tail lstrip]. destruct (isspace c).
  - rewrite IH. reflexivity.
  - apply dot_star_whole. constructor; assumption.
Qed.

Lemma lazy_head_first_colon (nm rest : str) :
  lacks COLON nm -> lacks NL nm -> lacks NL rest ->
  forall g1,
    lazy_head g1 (nm ++ COLON :: rest) = Some (g1 ++ nm, lstrip rest).
Proof.
  intros Hcolon. induction Hcolon as [|c nm Hc Hnm IH]; intros Hnl Hrest g1.
  - cbn [app lazy_head]. rewrite chr_eqb_refl.
    rewrite (ws_star_tail_lstrip rest Hrest), app_nil_r. reflexivity.
  - inversion Hnl as [|c' nm' Hcnl Hnmnl]. subst.
    cbn [app lazy_head]. rewrite Hc, Hcnl.
    rewrite (IH Hnmnl Hrest), <- app_assoc. reflexivity.
Qed.

Lemma strip_lstrip (s : str) : strip (lstrip s) = strip s.
Proof.
  unfold strip. rewrite (lstrip_fixed _ (lstrip_clean_head s)). reflexivity.
Qed.

(** X8. A paragraph whose trimmed text has one line, a non-empty part
    before its first colon and is no section header is split at that first
    colon: the part before it, trimmed, is the name and all that follows it,
    trimmed, is the description (later colons stay in the description);
    unless the title filter rejects the name, exactly this field is added,
    under the current section. *)
Theorem field_line_splits_at_first_colon (fields : list TemplateField)
    (sec p nm rest : str) (c : ascii) :
  strip p = (c :: nm) ++ COLON :: rest ->
  lacks COLON (c :: nm) -> lacks NL (c :: nm) -> lacks NL rest ->
  _is_section_header (strip p) = false ->
  _is_likely_title (strip (c :: nm)) = false ->
  paragraph_step (fields, sec) p
  = (fields ++ [mkField (strip (c :: nm)) (strip rest) (strip sec)], sec).
Proof.
  intros Hp Hcolon Hnl Hrest Hhdr Htitle.
  assert (Hm : match_field (strip p) = Some (c :: nm, lstrip rest)).
  { rewrite Hp. cbn [app match_field].
    inversion Hcolon as [|c' nm' Hc Hnm]. inversion Hnl as [|c'' nm'' Hcn Hnmn].
    subst. rewrite Hcn.
    rewrite (lazy_head_first_colon nm rest Hnm Hnmn Hrest). reflexivity. }
  unfold paragraph_step. rewrite Hhdr, Hm, Htitle.
  rewrite Hp. cbn [app truthy negb].
  unfold TemplateField_init. rewrite strip_lstrip, !strip_idem. reflexivity.
Qed.

Lemma field_line_splits_at_first_colon_witness :
  paragraph_step ([], py "Methods") (py "  Dose: 10 mg: twice daily ")
  = ([mkField (py "Dose") (py "10 mg: twice daily") (py "Methods")],
     py "Methods").
Proof.
  apply (field_line_splits_at_first_colon [] (py "Methods")
           (py "  Dose: 10 mg: twice daily ") (py "ose")
           (py " 10 mg: twice daily") (ascii_of_nat 68)).
  - vm_compute. reflexivity.
  - repeat constructor.
  - repeat constructor.
  - repeat constructor.
  - vm_compute. reflexivity.
  - vm_compute. reflexivity.
Defined.

End ParserExtras.

(* ================================================================== *)
(** ** Further properties of the extraction front-ends *)
(* ================================================================== *)

Module ExtractorExtras.

Import TemplateParser Py OsPath Frames Spec Aux StrFacts.

(** *** Unwrapping a fenced response *)

Lemma lstrip_blank_app (ws s : str) : blank ws -> lstrip (ws ++ s) = lstrip s.
Proof.
  induction 1 as [|c ws Hc Hws IH]; [reflexivity|].
  cbn [app lstrip]. rewrite Hc. exact IH.
Qed.

Lemma rstrip_app_blank (s ws : str) : blank ws -> rstrip (s ++ ws) = rstrip s.
Proof.
  intros H. unfold rstrip. rewrite rev_app_distr.
  rewrite lstrip_blank_app; [reflexivity|].
  apply Forall_rev. exact H.
Qed.

Lemma rstrip_snoc_fixed (s : str) (d : ascii) :
  isspace d = false -> rstrip (s ++ [d]) = s ++ [d].
Proof.
  intros Hd. unfold rstrip. rewrite rev_app_distr. cbn [rev app lstrip].
  rewrite Hd. cbn [rev]. rewrite rev_involutive. reflexivity.
Qed.

(** Trimming removes white space around a text that has none at its
    ends. *)
Lemma strip_padded (ws1 ws2 x : str) :
  blank ws1 -> blank ws2 -> clean_head x -> clean_head (rev x) ->
  strip (ws1 ++ x ++ ws2) = x.
Proof.
  intros H1 H2 Hx Hrx. unfold strip.
  rewrite lstrip_blank_app by exact H1.
  destruct x as [|c x].
  - cbn [app]. rewrite <- (app_nil_r ws2), lstrip_blank_app by exact H2.
    reflexivity.
  - simpl in Hx. cbn [app lstrip]. rewrite Hx.
    change (c :: x ++ ws2) with ((c :: x) ++ ws2).
    rewrite rstrip_app_blank by exact H2.
    unfold rstrip. rewrite (lstrip_fixed _ Hrx). apply rev_involutive.
Qed.

Lemma lstrip_blank (ws : str) : blank ws -> lstrip ws = [].
Proof.
  induction 1 as [|c ws Hc Hws IH]; [reflexivity|].
  cbn [lstrip]. rewrite Hc. exact IH.
Qed.

Lemma strip_app_blank (s ws : str) : blank ws -> strip (s ++ ws) = strip s.
Proof.
  intros Hws. unfold strip. induction s as [|c s IH].
  - cbn [app lstrip]. rewrite (lstrip_blank ws Hws). reflexivity.
  - cbn [app lstrip]. destruct (isspace c); [exact IH|].
    change (c :: s ++ ws) with ((c :: s) ++ ws).
    apply rstrip_app_blank. exact Hws.
Qed.

Lemma startswith_app (p s : str) : startswith (p ++ s) p = true.
Proof.
  induction p as [|c p IH]; [destruct s; reflexivity|].
  cbn [app startswith]. rewrite chr_eqb_refl. exact IH.
Qed.

Lemma endswith_app (s p : str) : endswith (s ++ p) p = true.
Proof. unfold endswith. rewrite rev_app_distr. apply startswith_app. Qed.

Lemma drop_trailing_fence_app (s : str) :
  drop_trailing_fence (s ++ py "```") = s.
Proof.
  unfold drop_trailing_fence. rewrite rev_app_distr.
  cbn [py list_ascii_of_string rev app skipn]. apply rev_involutive.
Qed.

Lemma first_line_split (pre rest : str) :
  lacks NL pre ->
  has_newline (pre ++ NL :: rest) = true
  /\ drop_first_line (pre ++ NL :: rest) = rest.
Proof.
  induction 1 as [|c pre Hc Hpre IH]; cbn [app has_newline drop_first_line].
  - rewrite chr_eqb_refl. split; reflexivity.
  - rewrite Hc. exact IH.
Qed.

(** X9. A response made of an opening fence with any info string on its
    line, a body, and a closing fence on a line of its own, with any white
    space around the whole, cleans to the body trimmed, whatever the body
    holds; and no cleaned text starts or ends with white space. *)
Theorem fenced_response_unwraps :
  (forall ws1 ws2 lang body : str,
     blank ws1 -> blank ws2 -> lacks NL lang ->
     GeminiApiExtractor.clean_json_string
       (ws1 ++ (py "```" ++ lang ++ NL :: body ++ NL :: py "```") ++ ws2)
     = strip body)
  /\ (forall text : str,
        strip (GeminiApiExtractor.clean_json_string text)
        = GeminiApiExtractor.clean_json_string text).
Proof.
  split.
  - intros ws1 ws2 lang body Hws1 Hws2 Hlang.
    rewrite ExtractorProps.clean_json_string_guarded.
    unfold spec_clean_guarded.
    assert (Hstrip : strip (ws1 ++ (py "```" ++ lang ++ NL :: body
                                    ++ NL :: py "```") ++ ws2)
                     = py "```" ++ lang ++ NL :: body ++ NL :: py "```").
    { apply strip_padded; try assumption; [reflexivity|].
      replace (py "```" ++ lang ++ NL :: body ++ NL :: py "```")
        with ((py "```" ++ lang ++ (NL :: body) ++ (NL :: py "``")) ++ py "`")
        by (rewrite <- !app_assoc; reflexivity).
      rewrite rev_app_distr. reflexivity. }
    rewrite Hstrip. rewrite startswith_app.
    rewrite app_assoc.
    assert (Hpre : lacks NL (py "```" ++ lang)).
    { apply Forall_app. split; [repeat constructor | exact Hlang]. }
    destruct (first_line_split (py "```" ++ lang) (body ++ NL :: py "```") Hpre)
      as [-> ->].
    change (body ++ NL :: py "```") with (body ++ [NL] ++ py "```").
    rewrite app_assoc, endswith_app, drop_trailing_fence_app.
    apply strip_app_blank. constructor; [reflexivity | constructor].
  - intros text. unfold GeminiApiExtractor.clean_json_string.
    apply strip_idem.
Qed.

Lemma fenced_response_unwraps_witness :
  GeminiApiExtractor.clean_json_string
    (py "  " ++ (py "```" ++ py "json" ++ NL :: py " [1, 2] " ++ NL :: py "```")
     ++ [NL])
  = py "[1, 2]".
Proof.
  rewrite (proj1 fenced_response_unwraps (py "  ") [NL] (py "json")
             (py " [1, 2] ")).
  - reflexivity.
  - repeat constructor.
  - repeat constructor.
  - repeat constructor.
Defined.

(** *** What the API extraction returns *)

Lemma extract_data_inv (json_loads : str -> result value)
    (exchange : GeminiApiExtractor.Exchange) (base : str) (d : dict value) :
  GeminiApiExtractor.extract_study_with_api json_loads exchange base
  = GeminiApiExtractor.Data d ->
  exists text obj,
    exchange = GeminiApiExtractor.Response text
    /\ json_loads (GeminiApiExtractor.clean_json_string text) = Ok (JObj obj)
    /\ d = dict_set obj (py "Source File") (JStr base).
Proof.
  unfold GeminiApiExtractor.extract_study_with_api.
  destruct exchange as [|text|e].
  - discriminate.
  - unfold GeminiApiExtractor.parse_response.
    destruct (json_loads (GeminiApiExtractor.clean_json_string text))
      as [v|e] eqn:Hl; cbn [bind].
    + destruct v as [| | | | |obj]; cbn [GeminiApiExtractor.setitem bind];
        try discriminate.
      intros H. injection H as <-.
      exists text, obj. split; [reflexivity|]. split; [exact Hl|].
      reflexivity.
    + destruct e; discriminate.
  - destruct e; discriminate.
Qed.

Lemma dict_set_truthy (V : Type) (d : dict V) (k : str) (v : V) :
  dict_truthy (dict_set d k v) = true.
Proof.
  destruct d as [|[k' v'] d]; [reflexivity|].
  simpl. destruct (str_eqb k' k); reflexivity.
Qed.

(** X10. When [extract_study_with_api] returns a record, the service did
    answer, the cleaned answer decoded to a JSON object, and the record is
    that object with the key [Source File] set to the base name of the PDF;
    the record is therefore not empty, and reconciling it against any field
    list never fails for a missing column. *)
Theorem extracted_record_carries_source
    (json_loads : str -> result value)
    (exchange : GeminiApiExtractor.Exchange) (base : str) (d : dict value) :
  GeminiApiExtractor.extract_study_with_api json_loads exchange base
  = GeminiApiExtractor.Data d ->
  exists text obj,
    exchange = GeminiApiExtractor.Response text
    /\ json_loads (GeminiApiExtractor.clean_json_string text) = Ok (JObj obj)
    /\ d = dict_set obj (py "Source File") (JStr base)
    /\ dict_get d (py "Source File") = Some (JStr base)
    /\ dict_truthy d = true
    /\ forall ALL_COLUMNS,
         GeminiApiExtractor.reconcile ALL_COLUMNS d
         = Ok (reconciled_row obj base ALL_COLUMNS).
Proof.
  intros H. apply extract_data_inv in H as (text & obj & -> & Hl & ->).
  exists text, obj. split; [reflexivity|]. split; [exact Hl|].
  split; [reflexivity|].
  split; [apply ExtractorProps.dict_get_set_same|].
  split; [apply dict_set_truthy|].
  intros ALL_COLUMNS. apply ExtractorProps.reconcile_shape.
Qed.

Lemma extracted_record_carries_source_witness :
  exists text obj,
    GeminiApiExtractor.Response EXAMPLE_RESPONSE
    = GeminiApiExtractor.Response text
    /\ example_loads (GeminiApiExtractor.clean_json_string text)
       = Ok (JObj obj)
    /\ [(py "a", JNum (py "1")); (py "Source File", JStr (py "s.pdf"))]
       = dict_set obj (py "Source File") (JStr (py "s.pdf"))
    /\ dict_get [(py "a", JNum (py "1"));
                 (py "Source File", JStr (py "s.pdf"))] (py "Source File")
       = Some (JStr (py "s.pdf"))
    /\ dict_truthy [(py "a", JNum (py "1"));
                    (py "Source File", JStr (py "s.pdf"))] = true
    /\ forall ALL_COLUMNS,
         GeminiApiExtractor.reconcile ALL_COLUMNS
           [(py "a", JNum (py "1")); (py "Source File", JStr (py "s.pdf"))]
         = Ok (reconciled_row obj (py "s.pdf") ALL_COLUMNS).
Proof.
  apply (extracted_record_carries_source example_loads
           (GeminiApiExtractor.Response EXAMPLE_RESPONSE) (py "s.pdf")).
  vm_compute. reflexivity.
Defined.

(** *** The retry loop *)

Section Retry.

Variable File : Type.
Variable lib : Store File.
Variable json_loads : str -> result value.
Variable exchange_of : str -> nat -> GeminiApiExtractor.Exchange.
Variable ALL_COLUMNS : list str.

Lemma retry_step_no_data (n i : nat) (results : list (dict value))
    (file : File) (pdf_path : str) :
  no_data (attempt json_loads exchange_of pdf_path i) ->
  ApiMain.retry_loop lib json_loads exchange_of (S n) i ALL_COLUMNS results
    file pdf_path
  = ApiMain.retry_loop lib json_loads exchange_of n (S i) ALL_COLUMNS results
      file pdf_path.
Proof.
  unfold Aux.attempt. cbn [ApiMain.retry_loop].
  destruct (GeminiApiExtractor.extract_study_with_api _ _ _) as [d| |];
    [|reflexivity|reflexivity].
  simpl. intros ->. reflexivity.
Qed.

Lemma retry_step_data (n i : nat) (results : list (dict value))
    (file : File) (pdf_path : str) (d : dict value) :
  attempt json_loads exchange_of pdf_path i = GeminiApiExtractor.Data d ->
  ApiMain.retry_loop lib json_loads exchange_of (S n) i ALL_COLUMNS results
    file pdf_path
  = GeminiApiExtractor.record_and_save lib ALL_COLUMNS results file d.
Proof.
  unfold Aux.attempt. intros H. cbn [ApiMain.retry_loop]. rewrite H.
  apply extract_data_inv in H as (text & obj & _ & _ & ->).
  rewrite dict_set_truthy. reflexivity.
Qed.


(** X11. For one PDF the API front-end makes at most three attempts and
    every attempt counts, a quota error like any other failure: the record
    of the first attempt that returns one is saved, once, and no further
    attempt is made; when none of the three attempts returns a record the
    file and the results are left as they were.  This holds whatever the
    library calls on the output file do. *)
Theorem retry_loop_saves_first_success (results : list (dict value))
    (file : File) (pdf_path : str) :
  (no_data (attempt json_loads exchange_of pdf_path 0) ->
   no_data (attempt json_loads exchange_of pdf_path 1) ->
   no_data (attempt json_loads exchange_of pdf_path 2) ->
   ApiMain.process_pdf lib json_loads exchange_of ALL_COLUMNS results file
     pdf_path
   = (file, Ok results))
  /\ (forall (k : nat) (d : dict value),
        k < 3 ->
        (forall j, j < k ->
                   no_data (attempt json_loads exchange_of pdf_path j)) ->
        attempt json_loads exchange_of pdf_path k = GeminiApiExtractor.Data d ->
        ApiMain.process_pdf lib json_loads exchange_of ALL_COLUMNS results
          file pdf_path
        = GeminiApiExtractor.record_and_save lib ALL_COLUMNS results file d).
Proof.
  unfold ApiMain.process_pdf, ApiMain.max_retries. split.
  - intros H0 H1 H2.
    rewrite retry_step_no_data by exact H0.
    rewrite retry_step_no_data by exact H1.
    rewrite retry_step_no_data by exact H2. reflexivity.
  - intros k d Hk Hbefore Hd.
    destruct k as [|[|[|k]]]; [| | |lia].
    + apply retry_step_data. exact Hd.
    + rewrite retry_step_no_data by (apply Hbefore; lia).
      apply retry_step_data. exact Hd.
    + rewrite retry_step_no_data by (apply Hbefore; lia).
      rewrite retry_step_no_data by (apply Hbefore; lia).
      apply retry_step_data. exact Hd.
Qed.

End Retry.

Lemma retry_loop_saves_first_success_witness :
  ApiMain.process_pdf memory_store example_loads
    (fun _ i => if i <? 2 then GeminiApiExtractor.Raised ResourceExhausted
                else GeminiApiExtractor.Response EXAMPLE_RESPONSE)
    [py "a"] [] None (py "Articles/s.pdf")
  = (Some (mkDF [py "Source File"; py "a"]
             [[JStr (py "s.pdf"); JNum (py "1")]]),
     Ok [[(py "a", JNum (py "1")); (py "Source File", JStr (py "s.pdf"))]])
  /\ ApiMain.process_pdf memory_store example_loads
       (fun _ i => if i <? 3 then GeminiApiExtractor.Raised ResourceExhausted
                   else GeminiApiExtractor.Response EXAMPLE_RESPONSE)
       [py "a"] [] None (py "Articles/s.pdf")
     = (None, Ok []).
Proof.
  split.
  - rewrite (proj2 (retry_loop_saves_first_success (option DataFrame)
                      memory_store example_loads
                      (fun _ i =>
                         if i <? 2
                         then GeminiApiExtractor.Raised ResourceExhausted
                         else GeminiApiExtractor.Response EXAMPLE_RESPONSE)
                      [py "a"] [] None (py "Articles/s.pdf"))
               2 [(py "a", JNum (py "1"));
                  (py "Source File", JStr (py "s.pdf"))]).
    + vm_compute. reflexivity.
    + lia.
    + intros [|[|j]] Hj; [exact I | exact I | lia].
    + vm_compute. reflexivity.
  - apply (proj1 (retry_loop_saves_first_success (option DataFrame)
                    memory_store example_loads
                    (fun _ i =>
                       if i <? 3
                       then GeminiApiExtractor.Raised ResourceExhausted
                       else GeminiApiExtractor.Response EXAMPLE_RESPONSE)
                    [py "a"] [] None (py "Articles/s.pdf")));
      exact I.
Defined.

(** *** A run over the files to process *)

Section Run.

Variable File : Type.
Variable lib : Store File.
Variable json_loads : str -> result value.
Variable exchange_of : str -> nat -> GeminiApiExtractor.Exchange.
Variable ALL_COLUMNS : list str.



End Run.

(** *** Resuming in the API front-end *)

Lemma In_slice_upto (A : Type) (l : list A) (n : Z) (x : A) :
  In x (slice_upto l n) -> In x l.
Proof.
  unfold slice_upto. destruct (n <? 0)%Z; intros H;
    match type of H with
    | In _ (firstn ?k _) =>
        rewrite <- (firstn_skipn k l); apply in_or_app; left; exact H
    end.
Qed.

(** X13. When the output file is read and has a [Source File] column, the
    API front-end processes, without a limit, exactly the PDFs of the listing
    whose base name equals no entry of that column of the table read, each
    entry taken as a string; with a limit it processes some of these.  So a
    PDF whose base name the table read holds is not processed again,
    whatever the listing and the limit are. *)
Theorem recorded_document_is_not_reprocessed (File : Type) (lib : Store File)
    (str_of : value -> str) (file : File) (table : DataFrame)
    (listing : list str) :
  output_exists lib file = true ->
  pd_read_excel lib file = Ok table ->
  mem (py "Source File") (df_columns table) = true ->
  (forall f,
     In f (ApiMain.files_to_process lib str_of file listing None)
     <-> In f (ApiMain.pdf_files listing)
         /\ ~ In (basename f)
                (map (ApiMain.astype_str str_of)
                   (column table (py "Source File"))))
  /\ (forall f limit,
        In f (ApiMain.files_to_process lib str_of file listing (Some limit)) ->
        In f (ApiMain.files_to_process lib str_of file listing None))
  /\ (forall pdf_path limit,
        In (JStr (basename pdf_path)) (column table (py "Source File")) ->
        ~ In pdf_path (ApiMain.files_to_process lib str_of file listing limit)).
Proof.
  intros Hex Hread Hcol.
  assert (Hproc : ApiMain.processed_files lib str_of file
                  = map (ApiMain.astype_str str_of)
                      (column table (py "Source File"))).
  { unfold ApiMain.processed_files. rewrite Hex, Hread.
    change GeminiApiExtractor.SOURCE_FILE with (py "Source File").
    rewrite Hcol. reflexivity. }
  assert (Hnone : forall f,
            In f (ApiMain.files_to_process lib str_of file listing None)
            <-> In f (ApiMain.pdf_files listing)
                /\ ~ In (basename f)
                       (map (ApiMain.astype_str str_of)
                          (column table (py "Source File")))).
  { intros f. unfold ApiMain.files_to_process. cbv zeta.
    rewrite Hproc, filter_In, negb_true_iff, mem_not_In. reflexivity. }
  assert (Hsome : forall f limit,
            In f (ApiMain.files_to_process lib str_of file listing
                    (Some limit)) ->
            In f (ApiMain.files_to_process lib str_of file listing None)).
  { intros f limit. unfold ApiMain.files_to_process. cbv zeta.
    apply In_slice_upto. }
  split; [exact Hnone|]. split; [exact Hsome|].
  intros pdf_path limit Hrec Hin.
  assert (Hin' : In pdf_path
                   (ApiMain.files_to_process lib str_of file listing None)).
  { destruct limit as [n|]; [apply (Hsome _ n) | ]; exact Hin. }
  apply (proj1 (Hnone pdf_path)) in Hin' as [_ Hnot]. apply Hnot.
  change (basename pdf_path)
    with (ApiMain.astype_str str_of (JStr (basename pdf_path))).
  apply in_map. exact Hrec.
Qed.

Lemma recorded_document_is_not_reprocessed_witness :
  ApiMain.files_to_process memory_store (fun _ => py "nan")
    (Some (mkDF [py "Source File"; py "X"]
             [ [JStr (py "doc2.pdf"); JStr (py "3")]; [JNull; JStr (py "4")] ]))
    [py "doc2.pdf"; py "notes.txt"; py "doc3.PDF"; py "data doc2.pdf"] None
  = [py "Articles/doc3.PDF"; py "Articles/data doc2.pdf"]
  /\ ~ In (py "Articles/doc2.pdf")
        (ApiMain.files_to_process memory_store (fun _ => py "nan")
           (Some (mkDF [py "Source File"; py "X"]
                    [ [JStr (py "doc2.pdf"); JStr (py "3")];
                      [JNull; JStr (py "4")] ]))
           [py "doc2.pdf"; py "notes.txt"; py "doc3.PDF"; py "data doc2.pdf"]
           (Some 1%Z)).
Proof.
  split; [vm_compute; reflexivity|].
  apply (proj2 (proj2 (recorded_document_is_not_reprocessed
                         (option DataFrame) memory_store (fun _ => py "nan")
                         (Some (mkDF [py "Source File"; py "X"]
                                  [ [JStr (py "doc2.pdf"); JStr (py "3")];
                                    [JNull; JStr (py "4")] ]))
                         (mkDF [py "Source File"; py "X"]
                            [ [JStr (py "doc2.pdf"); JStr (py "3")];
                              [JNull; JStr (py "4")] ])
                         [py "doc2.pdf"; py "notes.txt"; py "doc3.PDF";
                          py "data doc2.pdf"]
                         eq_refl eq_refl eq_refl))
           (py "Articles/doc2.pdf") (Some 1%Z)).
  left. vm_compute. reflexivity.
Defined.

(** *** Resuming in the browser front-end *)

(** X14. When the output file is read and has a [Source File] column, the
    browser front-end keeps exactly the PDFs whose base name occurs inside no
    recorded, non-missing source entry of the table read.  Equality is not
    required: a PDF that was never processed is skipped when its name is part
    of the name of one that was. *)
Theorem resume_skips_by_substring (File : Type) (lib : Store File)
    (str_of : value -> str) (file : File) (table : DataFrame)
    (pdf_files : list str) (f : str) :
  output_exists lib file = true ->
  pd_read_excel lib file = Ok table ->
  mem (py "Source File") (df_columns table) = true ->
  (In f (BrowserMain.resume lib str_of file pdf_files)
   <-> In f pdf_files
       /\ forall v,
            In v (column table (py "Source File")) -> v <> JNull ->
            contains (BrowserMain.astype_str str_of v) (basename f) = false).
Proof.
  intros Hex Hread Hcol. unfold BrowserMain.resume. rewrite Hex, Hread.
  change GeminiExtractor.SOURCE_FILE with (py "Source File").
  rewrite Hcol, filter_In, negb_true_iff, mem_not_In.
  unfold BrowserMain.files_to_skip, BrowserMain.processed_files, dropna.
  rewrite filter_In. split.
  - intros [Hf Hskip]. split; [exact Hf|]. intros v Hv Hnull.
    destruct (contains (BrowserMain.astype_str str_of v) (basename f)) eqn:E;
      [|reflexivity].
    exfalso. apply Hskip. split; [exact Hf|].
    apply existsb_exists. exists (BrowserMain.astype_str str_of v).
    split; [|exact E]. apply in_map. apply filter_In. split; [exact Hv|].
    destruct v; try reflexivity. contradiction.
  - intros [Hf Hnone]. split; [exact Hf|]. intros [_ Hex'].
    apply existsb_exists in Hex' as (r & Hr & Hsub).
    apply in_map_iff in Hr as (v & <- & Hv).
    apply filter_In in Hv as [Hv Hnn].
    rewrite (Hnone v Hv) in Hsub; [discriminate|].
    intros ->. discriminate Hnn.
Qed.

Lemma resume_skips_by_substring_witness :
  BrowserMain.resume memory_store (fun _ => py "nan")
    (Some (mkDF [py "Source File"] [[JStr (py "data.pdf")]]))
    (BrowserMain.get_pdf_files [py "a.pdf"; py "b.pdf"; py "data.pdf"])
  = [py "Articles/b.pdf"]
  /\ ~ In (py "Articles/a.pdf")
        (BrowserMain.resume memory_store (fun _ => py "nan")
           (Some (mkDF [py "Source File"] [[JStr (py "data.pdf")]]))
           (BrowserMain.get_pdf_files [py "a.pdf"; py "b.pdf"; py "data.pdf"])).
Proof.
  split; [vm_compute; reflexivity|].
  intros Hin.
  apply (proj1 (resume_skips_by_substring (option DataFrame) memory_store
                  (fun _ => py "nan")
                  (Some (mkDF [py "Source File"] [[JStr (py "data.pdf")]]))
                  (mkDF [py "Source File"] [[JStr (py "data.pdf")]])
                  (BrowserMain.get_pdf_files
                     [py "a.pdf"; py "b.pdf"; py "data.pdf"])
                  (py "Articles/a.pdf") eq_refl eq_refl eq_refl)) in Hin.
  destruct Hin as [_ Hnone].
  specialize (Hnone (JStr (py "data.pdf")) (or_introl eq_refl)
                ltac:(discriminate)).
  vm_compute in Hnone. discriminate Hnone.
Defined.

Lemma contains_refl (s : str) : contains s s = true.
Proof.
  destruct s as [|c s]; [reflexivity|].
  cbn [contains]. rewrite <- (app_nil_r (c :: s)) at 1.
  rewrite startswith_app. reflexivity.
Qed.

(** X15. A PDF whose base name the table read holds in its [Source File]
    column, or whose base name is part of an entry that the column holds, is
    left out by the browser front-end, whatever the other PDFs are. *)
Theorem browser_recorded_document_is_skipped (File : Type) (lib : Store File)
    (str_of : value -> str) (file : File) (table : DataFrame)
    (pdf_files : list str) (pdf_path recorded : str) :
  output_exists lib file = true ->
  pd_read_excel lib file = Ok table ->
  mem (py "Source File") (df_columns table) = true ->
  In (JStr recorded) (column table (py "Source File")) ->
  recorded = basename pdf_path \/ contains recorded (basename pdf_path) = true ->
  ~ In pdf_path (BrowserMain.resume lib str_of file pdf_files).
Proof.
  intros Hex Hread Hcol Hrec Hsub.
  assert (Hc : contains recorded (basename pdf_path) = true).
  { destruct Hsub as [-> | H]; [apply contains_refl | exact H]. }
  unfold BrowserMain.resume. rewrite Hex, Hread.
  change GeminiExtractor.SOURCE_FILE with (py "Source File").
  rewrite Hcol. intros Hin.
  apply filter_In in Hin as [Hf Hskip].
  apply negb_true_iff in Hskip. apply mem_not_In in Hskip. apply Hskip.
  unfold BrowserMain.files_to_skip. apply filter_In. split; [exact Hf|].
  apply existsb_exists. exists recorded. split; [|exact Hc].
  unfold BrowserMain.processed_files.
  change recorded with (BrowserMain.astype_str str_of (JStr recorded)).
  apply in_map. unfold dropna. apply filter_In. split; [|reflexivity].
  exact Hrec.
Qed.

Lemma browser_recorded_document_is_skipped_witness :
  ~ In (py "Articles/doc2.pdf")
      (BrowserMain.resume memory_store (fun _ => py "nan")
         (Some (mkDF [py "Source File"; py "X"]
                  [ [JStr (py "doc2.pdf"); JStr (py "3")];
                    [JNull; JStr (py "4")] ]))
         [py "Articles/doc2.pdf"; py "Articles/doc3.pdf"]).
Proof.
  apply (browser_recorded_document_is_skipped (option DataFrame) memory_store
           (fun _ => py "nan")
           (Some (mkDF [py "Source File"; py "X"]
                    [ [JStr (py "doc2.pdf"); JStr (py "3")];
                      [JNull; JStr (py "4")] ]))
           (mkDF [py "Source File"; py "X"]
              [ [JStr (py "doc2.pdf"); JStr (py "3")]; [JNull; JStr (py "4")] ])
           [py "Articles/doc2.pdf"; py "Articles/doc3.pdf"]
           (py "Articles/doc2.pdf") (py "doc2.pdf")
           eq_refl eq_refl eq_refl).
  - left. reflexivity.
  - left. vm_compute. reflexivity.
Defined.

(** *** The JSON text of a browser response *)

Lemma startswith_chr (s : str) (c : ascii) :
  startswith s [c] = match s with [] => false | x :: _ => chr_eqb x c end.
Proof.
  destruct s as [|x s]; [reflexivity|]. cbn [startswith].
  replace (startswith s []) with true by (destruct s; reflexivity).
  rewrite andb_true_r. unfold chr_eqb. apply Ascii.eqb_sym.
Qed.

Lemma find_lacking (c : ascii) (s : str) :
  lacks c s -> forall i, find_from i s [c] = (-1)%Z.
Proof.
  induction 1 as [|x s Hx Hs IH]; intros i; cbn [find_from];
    rewrite startswith_chr; [reflexivity|].
  rewrite Hx. apply IH.
Qed.

Lemma find_first (c : ascii) (pre rest : str) :
  lacks c pre ->
  forall i,
    find_from i (pre ++ c :: rest) [c] = (i + Z.of_nat (List.length pre))%Z.
Proof.
  induction 1 as [|x pre Hx Hpre IH]; intros i; cbn [app find_from];
    rewrite startswith_chr.
  - rewrite chr_eqb_refl. cbn [List.length]. lia.
  - rewrite Hx, IH. cbn [List.length]. lia.
Qed.

Lemma In_split_first (c : ascii) (s : str) :
  In c s -> exists pre rest, s = pre ++ c :: rest /\ lacks c pre.
Proof.
  induction s as [|x s IH]; intros Hin; [destruct Hin|].
  destruct (chr_eqb x c) eqn:E.
  - apply chr_eqb_eq in E. subst x. exists [], s.
    split; [reflexivity | constructor].
  - destruct Hin as [-> | Hin]; [rewrite chr_eqb_refl in E; discriminate|].
    destruct (IH Hin) as (pre & rest & -> & Hpre).
    exists (x :: pre), rest. split; [reflexivity|].
    constructor; [exact E | exact Hpre].
Qed.

Lemma rfind_lacking (c : ascii) (s : str) :
  lacks c s -> forall i last, rfind_chr_from i s c last = last.
Proof.
  induction 1 as [|x s Hx Hs IH]; intros i last; [reflexivity|].
  cbn [rfind_chr_from]. rewrite Hx. apply IH.
Qed.

Lemma rfind_last (c : ascii) (s post : str) :
  lacks c post ->
  forall i last,
    rfind_chr_from i (s ++ c :: post) c last
    = (i + Z.of_nat (List.length s))%Z.
Proof.
  intros Hpost. induction s as [|x s IH]; intros i last.
  - cbn [app rfind_chr_from List.length]. rewrite chr_eqb_refl.
    rewrite (rfind_lacking c post Hpost). lia.
  - cbn [app rfind_chr_from List.length]. rewrite IH. lia.
Qed.

Lemma skipn_length_app (A : Type) (l r : list A) :
  skipn (List.length l) (l ++ r) = r.
Proof. induction l as [|x l IH]; [reflexivity | exact IH]. Qed.

Lemma firstn_length_app (A : Type) (l r : list A) :
  firstn (List.length l) (l ++ r) = l.
Proof.
  induction l as [|x l IH]; [reflexivity|].
  cbn [List.length app firstn]. rewrite IH. reflexivity.
Qed.

(** X16. From a response that holds a JSON object between its first opening
    brace and its last closing brace, with any text before and after, the
    browser front-end hands the decoder exactly the text from that first
    opening brace to that last closing brace, both included. *)
Theorem json_str_is_outermost_braces (pre body post : str) :
  lacks BrowserMain.LBRACE pre ->
  lacks BrowserMain.RBRACE post ->
  BrowserMain.json_str
    (pre ++ BrowserMain.LBRACE :: body ++ BrowserMain.RBRACE :: post)
  = Some (BrowserMain.LBRACE :: body ++ [BrowserMain.RBRACE]).
Proof.
  intros Hpre Hpost. unfold BrowserMain.json_str, PyStr.find, rfind_chr.
  rewrite (find_first BrowserMain.LBRACE pre _ Hpre).
  replace (pre ++ BrowserMain.LBRACE :: body ++ BrowserMain.RBRACE :: post)
    with ((pre ++ BrowserMain.LBRACE :: body) ++ BrowserMain.RBRACE :: post)
    by (rewrite <- app_assoc; reflexivity).
  rewrite (rfind_last BrowserMain.RBRACE _ post Hpost).
  rewrite length_app. cbn [List.length].
  replace (negb (0 + Z.of_nat (List.length pre) =? -1)%Z) with true
    by (symmetry; apply negb_true_iff, Z.eqb_neq; lia).
  replace (negb (0 + Z.of_nat (List.length pre + S (List.length body)) + 1
                 =? -1)%Z) with true
    by (symmetry; apply negb_true_iff, Z.eqb_neq; lia).
  cbn [andb]. f_equal. unfold BrowserMain.slice.
  replace (Z.to_nat (0 + Z.of_nat (List.length pre))) with (List.length pre)
    by lia.
  replace (Z.to_nat (0 + Z.of_nat (List.length pre + S (List.length body)) + 1)
           - List.length pre)
    with (List.length (BrowserMain.LBRACE :: body ++ [BrowserMain.RBRACE]))
    by (cbn [List.length]; rewrite length_app; cbn [List.length]; lia).
  rewrite <- app_assoc. rewrite skipn_length_app. cbn [app].
  replace (BrowserMain.LBRACE :: body ++ BrowserMain.RBRACE :: post)
    with ((BrowserMain.LBRACE :: body ++ [BrowserMain.RBRACE]) ++ post)
    by (cbn [app]; rewrite <- app_assoc; reflexivity).
  apply firstn_length_app.
Qed.

Lemma json_str_is_outermost_braces_witness :
  BrowserMain.json_str
    (py "Here you go: " ++ BrowserMain.LBRACE :: py "x: {y: 1}, z: {}"
     ++ BrowserMain.RBRACE :: py " Hope this helps.")
  = Some (BrowserMain.LBRACE :: py "x: {y: 1}, z: {}" ++ [BrowserMain.RBRACE]).
Proof.
  apply (json_str_is_outermost_braces (py "Here you go: ")
           (py "x: {y: 1}, z: {}") (py " Hope this helps."));
    repeat constructor.
Defined.

(** X17. A response without an opening brace takes the branch "No JSON
    found".  A response without a closing brace never does on that account:
    the test on [end] cannot fail, so with an opening brace anywhere in it
    the decoder is handed the empty text, and no record is returned when the
    decoder rejects the empty text. *)
Theorem json_str_without_braces (last_response : str) :
  (lacks BrowserMain.LBRACE last_response ->
   BrowserMain.json_str last_response = None)
  /\ (lacks BrowserMain.RBRACE last_response ->
      (In BrowserMain.LBRACE last_response ->
       BrowserMain.json_str last_response = Some [])
      /\ forall (json_loads : str -> result value) (base : str) (e : PyExn),
           json_loads [] = Raise e ->
           BrowserMain.parse_response json_loads last_response base = None).
Proof.
  split.
  - intros H. unfold BrowserMain.json_str, PyStr.find.
    rewrite (find_lacking _ _ H). reflexivity.
  - intros H.
    assert (Hend : BrowserMain.json_str last_response
                   = if negb (PyStr.find last_response [BrowserMain.LBRACE]
                              =? -1)%Z
                     then Some [] else None).
    { unfold BrowserMain.json_str, rfind_chr.
      rewrite (rfind_lacking _ _ H).
      destruct (negb (PyStr.find last_response [BrowserMain.LBRACE] =? -1)%Z);
        reflexivity. }
    split.
    + intros Hin. rewrite Hend.
      apply In_split_first in Hin as (pre & rest & -> & Hpre).
      unfold PyStr.find. rewrite (find_first _ pre rest Hpre).
      replace (0 + Z.of_nat (List.length pre) =? -1)%Z with false
        by (symmetry; apply Z.eqb_neq; lia).
      reflexivity.
    + intros json_loads base e He. unfold BrowserMain.parse_response.
      rewrite Hend.
      destruct (negb (PyStr.find last_response [BrowserMain.LBRACE] =? -1)%Z);
        [|reflexivity].
      rewrite He. reflexivity.
Qed.

Lemma json_str_without_braces_witness :
  BrowserMain.json_str (py "I could not read the file.") = None
  /\ BrowserMain.json_str (py "Sure: " ++ BrowserMain.LBRACE :: py " unfinished")
     = Some []
  /\ BrowserMain.parse_response example_loads
       (py "Sure: " ++ BrowserMain.LBRACE :: py " unfinished") (py "s.pdf")
     = None.
Proof.
  split; [|split].
  - apply (proj1 (json_str_without_braces (py "I could not read the file."))).
    repeat constructor.
  - apply (proj1 (proj2 (json_str_without_braces
                           (py "Sure: " ++ BrowserMain.LBRACE
                            :: py " unfinished"))
                    ltac:(repeat constructor))).
    apply in_or_app. right. left. reflexivity.
  - apply (proj2 (proj2 (json_str_without_braces
                           (py "Sure: " ++ BrowserMain.LBRACE
                            :: py " unfinished"))
                    ltac:(repeat constructor))
             example_loads (py "s.pdf") JSONDecodeError).
    reflexivity.
Defined.

(** *** Grouping the fields by section *)

Lemma flat_map_ext_in (A B : Type) (f g : A -> list B) (l : list A) :
  (forall x, In x l -> f x = g x) -> flat_map f l = flat_map g l.
Proof.
  induction l as [|x l IH]; intros H; [reflexivity|]. cbn [flat_map].
  rewrite (H x (or_introl eq_refl)), IH; [reflexivity|].
  intros y Hy. apply H. right. exact Hy.
Qed.

Lemma fields_of_cons (sec : str) (f : TemplateField)
    (fields : list TemplateField) :
  fields_of sec (f :: fields)
  = if str_eqb (spec_label f) sec then f :: fields_of sec fields
    else fields_of sec fields.
Proof. reflexivity. Qed.

Lemma partition_by_label (fields : list TemplateField) :
  forall ks : list str,
    NoDup ks ->
    (forall f, In f fields -> In (spec_label f) ks) ->
    Permutation (flat_map (fun k => fields_of k fields) ks) fields.
Proof.
  induction fields as [|f fields IH]; intros ks Hnd Hall.
  - induction ks as [|k ks IHk]; [constructor|]. cbn [flat_map].
    apply IHk; [inversion Hnd; assumption | intros f []].
  - destruct (in_split _ _ (Hall f (or_introl eq_refl))) as (ks1 & ks2 & ->).
    apply NoDup_remove_2 in Hnd as Hfresh.
    rewrite flat_map_app. cbn [flat_map].
    rewrite fields_of_cons, str_eqb_refl.
    rewrite (flat_map_ext_in _ _ (fun k => fields_of k (f :: fields))
               (fun k => fields_of k fields) ks1).
    2:{ intros k Hk. rewrite fields_of_cons.
        replace (str_eqb (spec_label f) k) with false; [reflexivity|].
        symmetry. apply str_eqb_neq. intros E. apply Hfresh.
        apply in_or_app. left. rewrite E. exact Hk. }
    rewrite (flat_map_ext_in _ _ (fun k => fields_of k (f :: fields))
               (fun k => fields_of k fields) ks2).
    2:{ intros k Hk. rewrite fields_of_cons.
        replace (str_eqb (spec_label f) k) with false; [reflexivity|].
        symmetry. apply str_eqb_neq. intros E. apply Hfresh.
        apply in_or_app. right. rewrite E. exact Hk. }
    cbn [app]. symmetry. apply Permutation_cons_app. symmetry.
    specialize (IH (ks1 ++ spec_label f :: ks2) Hnd
                  (fun g Hg => Hall g (or_intror Hg))).
    rewrite flat_map_app in IH. exact IH.
Qed.

(** X18. The grouping that [create_prompt] and the template inspection use
    is a partition of the field list: the groups taken together hold every
    field exactly once, the section names of the groups are distinct, no
    group is empty, and every field of a group has the section the group is
    named after (the empty section going under "General"). *)
Theorem group_fields_is_partition (fields : list TemplateField) :
  Permutation
    (List.concat (map snd (GeminiApiExtractor.group_fields fields))) fields
  /\ NoDup (map fst (GeminiApiExtractor.group_fields fields))
  /\ Forall (fun kv : str * list TemplateField =>
               snd kv <> []
               /\ Forall (fun f => GeminiApiExtractor.section_key f = fst kv)
                         (snd kv))
            (GeminiApiExtractor.group_fields fields)
  /\ GeminiExtractor.group_fields fields
     = GeminiApiExtractor.group_fields fields.
Proof.
  assert (Hsame : GeminiExtractor.group_fields fields
                  = GeminiApiExtractor.group_fields fields) by reflexivity.
  revert Hsame.
  generalize (GeminiExtractor.group_fields fields) as browser_groups.
  intros browser_groups Hsame.
  rewrite ExtractorProps.group_fields_grouped in *. unfold grouped in *.
  split; [|split; [|split; [|exact Hsame]]].
  - rewrite map_map. cbn [snd]. rewrite <- flat_map_concat_map.
    apply partition_by_label.
    + apply ExtractorProps.first_occurrences_NoDup.
    + intros f Hf. apply ExtractorProps.first_occurrences_In.
      apply in_map. exact Hf.
  - rewrite map_map. cbn [fst]. rewrite map_id.
    apply ExtractorProps.first_occurrences_NoDup.
  - apply Forall_forall. intros kv Hkv.
    apply in_map_iff in Hkv as (sec & <- & Hsec). cbn [fst snd]. split.
    + apply (proj1 (ExtractorProps.first_occurrences_In _ _)) in Hsec.
      apply in_map_iff in Hsec as (f & Hl & Hf).
      intros Hnil.
      assert (Hin : In f (fields_of sec fields)).
      { apply filter_In. split; [exact Hf|]. apply str_eqb_eq. exact Hl. }
      rewrite Hnil in Hin. destruct Hin.
    + apply Forall_forall. intros f Hf. apply filter_In in Hf as [_ Hf].
      rewrite ExtractorProps.section_key_label. apply str_eqb_eq. exact Hf.
Qed.

End ExtractorExtras.
